(** * smap_io.interface: single-image reader and dataset iterator

    A shallow embedding of [src/smap_io/interface.py] (classes
    [SPL3SMP_Img] and [SPL3SMP_Ds]) together with the properties of the
    reader that the specification states.

    Conventions of the embedding:
    - Python exceptions are the [Raise] branch of [result];
    - numeric array elements and attribute values are integers ([Z]):
      the embedding covers fields of an integer dtype whose attributes
      [_FillValue], [valid_min] and [valid_max] have the dtype of the
      field, so that [np.where] converts nothing; floating-point fields,
      with their NaN and their rounding on conversion, are outside of it;
    - [str] is [string], one character per byte, with the case mapping of
      ASCII: [upper] and [lower] are [str.upper] and [str.lower] on the
      strings for which [isascii] holds;
    - a [datetime] is naive (its [tzinfo] is [None]);
    - an HDF5 group is the flat mapping of its members, all datasets, and
      [h5_getitem] is [group[name]] for the names that address a direct
      member ([h5_plain_name]), not for paths;
    - [dict] is stdpp's [gmap]; assignment [d[k] = v] is [<[k:=v]> d]. *)

From Stdlib Require Import ZArith List String Ascii Lia Bool.
From stdpp Require Import gmap strings list fin_maps.

Local Open Scope string_scope.

(** ** Exceptions and the error monad *)

Inductive exn : Type :=
| IOError_open (filename : string)
| IOError_multiple_overpasses (overpasses : list string)
| IndexError_list
| AssertionError
| NameError_field (sm_field : string)
| KeyError (key : string)
| IndexError_index (i : Z)
| ValueError_grid_1d
| ValueError_shape_mismatch (shape : list nat)
| ValueError_reshape
| OverflowError.

Inductive result (A : Type) : Type :=
| Ok (a : A)
| Raise (e : exn).

Arguments Ok {A} a.
Arguments Raise {A} e.

#[global] Instance result_ret : MRet result := fun _ a => Ok a.
#[global] Instance result_bind : MBind result := fun _ _ k m =>
  match m with
  | Ok a => k a
  | Raise e => Raise e
  end.
#[global] Instance result_fmap : FMap result := fun _ _ f m =>
  match m with
  | Ok a => Ok (f a)
  | Raise e => Raise e
  end.

(** A [for] loop whose body may raise: the first exception ends the loop. *)
Fixpoint for_each {A B : Type} (body : A -> result B) (xs : list A) : result (list B) :=
  match xs with
  | [] => Ok []
  | x :: xs' =>
      y ← body x;
      ys ← for_each body xs';
      Ok (y :: ys)
  end.

Definition is_ok {A : Type} (r : result A) : bool :=
  match r with Ok _ => true | Raise _ => false end.

(** ** str *)

Module PyStr.

Definition upper_ascii (c : ascii) : ascii :=
  let n := nat_of_ascii c in
  if ((97 <=? n) && (n <=? 122))%nat then ascii_of_nat (n - 32) else c.

Definition lower_ascii (c : ascii) : ascii :=
  let n := nat_of_ascii c in
  if ((65 <=? n) && (n <=? 90))%nat then ascii_of_nat (n + 32) else c.

(** [s.upper()] and [s.lower()] *)
Fixpoint upper (s : string) : string :=
  match s with
  | EmptyString => EmptyString
  | String c s' => String (upper_ascii c) (upper s')
  end.

Fixpoint lower (s : string) : string :=
  match s with
  | EmptyString => EmptyString
  | String c s' => String (lower_ascii c) (lower s')
  end.

(** [s[n:]] *)
Fixpoint drop (n : nat) (s : string) : string :=
  match n, s with
  | S n', String _ s' => drop n' s'
  | _, _ => s
  end.

(** [s[:n]] *)
Fixpoint take (n : nat) (s : string) : string :=
  match n, s with
  | S n', String c s' => String c (take n' s')
  | _, _ => EmptyString
  end.

(** [s.endswith(suffix)] *)
Definition endswith (s suffix : string) : bool :=
  let n := String.length s in
  let m := String.length suffix in
  if (m <=? n)%nat then String.eqb (drop (n - m) s) suffix else false.

(** [s.isascii()] *)
Definition isascii (s : string) : bool :=
  forallb (fun c => (nat_of_ascii c <? 128)%nat) (list_ascii_of_string s).

(** Truth value of a string: only the empty string is false. *)
Definition truthy (s : string) : bool := negb (String.eqb s "").

(** [needle in hay] *)
Fixpoint contains (needle hay : string) : bool :=
  String.prefix needle hay ||
  match hay with
  | EmptyString => false
  | String _ hay' => contains needle hay'
  end.

End PyStr.

(** ** The [parse] library, for a template with the one field [{orbit}] *)

Module Parse.

(** The literal text before and after the field [{orbit}] of a template. *)
Fixpoint split_templ (templ : string) : string * string :=
  if String.prefix "{orbit}" templ then ("", PyStr.drop 7 templ)
  else match templ with
       | EmptyString => ("", "")
       | String c templ' =>
           let '(before, after) := split_templ templ' in (String c before, after)
       end.

(** [templ.format(orbit=v)] *)
Definition format (templ v : string) : string :=
  let '(before, after) := split_templ templ in before ++ v ++ after.

(** [parse(templ, k)['orbit']], or [None] when [parse] returns [None].
    The literal text is compared ignoring case, the field matches one or
    more arbitrary characters, and the whole of [k] has to be matched. *)
Definition parse (templ k : string) : option string :=
  let '(before, after) := split_templ templ in
  let n := String.length k in
  let b := String.length before in
  let a := String.length after in
  if (b + a <? n)%nat
     && String.eqb (PyStr.lower (PyStr.take b k)) (PyStr.lower before)
     && String.eqb (PyStr.lower (PyStr.drop (n - a) k)) (PyStr.lower after)
  then Some (PyStr.take (n - a - b) (PyStr.drop b k))
  else None.

End Parse.

(** ** numpy *)

Module Np.

(** [np.flipud(a)]: reverse the leading axis. *)
Definition flipud {A : Type} (rows : list A) : list A := rev rows.

(** [a.flatten()] of a 2-D array, row-major. *)
Definition flatten (rows : list (list Z)) : list Z := concat rows.

(** [a[i]] for a 1-D array: negative indices count from the end. *)
Definition getitem (a : list Z) (i : Z) : result Z :=
  let n := Z.of_nat (length a) in
  let j := (if i <? 0 then i + n else i)%Z in
  if ((0 <=? j) && (j <? n))%Z
  then match a !! Z.to_nat j with
       | Some v => Ok v
       | None => Raise (IndexError_index i)
       end
  else Raise (IndexError_index i).

(** [a[idx]] for an integer index array [idx]. *)
Definition fancy_index (a : list Z) (idx : list Z) : result (list Z) :=
  for_each (getitem a) idx.

(** [np.where(cond, fill, a)] with an elementwise condition on [a]. *)
Definition where_ (cond : Z -> bool) (fill : Z) (a : list Z) : list Z :=
  (fun v => if cond v then fill else v) <$> a.

(** [np.prod(shape)] *)
Definition prod (shape : list nat) : nat := fold_right Nat.mul 1 shape.

Fixpoint chunks (r c : nat) (a : list Z) : list (list Z) :=
  match r with
  | 0 => []
  | S r' => firstn c a :: chunks r' c (skipn c a)
  end.

(** [a.reshape((r, c))] of a 1-D array, row-major. *)
Definition reshape2 (a : list Z) (r c : nat) : result (list (list Z)) :=
  if (length a =? r * c)%nat then Ok (chunks r c a) else Raise ValueError_reshape.

End Np.

(** ** datetime *)

Module Datetime.

  (** [datetime.max.toordinal()] *)
Definition MAXORDINAL : Z := 3652059.
Definition USEC_PER_DAY : Z := 86400000000.

  (** A naive [datetime]: the proleptic Gregorian ordinal of its day
      ([toordinal()]) and the microseconds elapsed since midnight. *)
Record datetime : Type := mk_datetime { ordinal : Z; usec : Z }.

Definition valid (d : datetime) : Prop :=
    (1 <= ordinal d <= MAXORDINAL)%Z /\ (0 <= usec d < USEC_PER_DAY)%Z.

  (** A normalised [timedelta]: [days] may be negative, the remainder
      ([seconds] and [microseconds] together) never is. *)
Record timedelta : Type := mk_timedelta { days : Z; rem_usec : Z }.

  (** [a - b] *)
Definition sub (a b : datetime) : timedelta :=
    let total := ((ordinal a - ordinal b) * USEC_PER_DAY + (usec a - usec b))%Z in
    {| days := (total / USEC_PER_DAY)%Z; rem_usec := (total mod USEC_PER_DAY)%Z |}.

  (** [d + timedelta(days=i)] *)
Definition add_days (d : datetime) (i : Z) : result datetime :=
    let o := (ordinal d + i)%Z in
    if ((0 <? o) && (o <=? MAXORDINAL))%Z
    then Ok {| ordinal := o; usec := usec d |}
    else Raise OverflowError.

  (** [a <= b] and [a < b] *)
Definition le (a b : datetime) : Prop :=
    (ordinal a < ordinal b)%Z \/ (ordinal a = ordinal b /\ usec a <= usec b)%Z.
Definition lt (a b : datetime) : Prop :=
    (ordinal a < ordinal b)%Z \/ (ordinal a = ordinal b /\ usec a < usec b)%Z.

End Datetime.

(** [range(n)] *)
Definition py_range (n : Z) : list Z := Z.of_nat <$> seq 0 (Z.to_nat n).

(** ** The collaborators of the reader: grid, HDF5 file, Image *)

(** The query surface of [pygeogrids.CellGrid] that [read] uses. *)
Record CellGrid : Type := mk_CellGrid {
  activegpis : list Z;
  activearrlon : list Z;
  activearrlat : list Z;
  subset_shape : list nat
}.

(** An HDF5 dataset: a 2-D array with its attributes. *)
Record Dataset : Type := mk_Dataset {
  values : list (list Z);
  attrs : gmap string Z
}.

(** An HDF5 file is a mapping from group names to groups, a group a
    mapping from field names to datasets. *)
Abbreviation Group := (gmap string Dataset).
Abbreviation H5File := (gmap string (gmap string Dataset)).

(** [list(ds.keys())] *)
Definition h5_keys (ds : H5File) : list string := (map_to_list ds).*1.

(** [group[name]] *)
Definition h5_getitem (group : Group) (name : string) : result Dataset :=
  match group !! name with
  | Some d => Ok d
  | None => Raise (KeyError name)
  end.

(** h5py resolves the name given to [group[name]] as a path. A name
    without ["/"] that is neither empty nor ["."] addresses a direct
    member of the group, and for such names [h5_getitem] is
    [group[name]]. *)
Definition h5_plain_name (name : string) : bool :=
  negb (PyStr.contains "/" name) && negb (String.eqb name ".")
  && negb (String.eqb name "").

(** [h5py.File(filename, mode='r')] on a disk holding the files [fs]. *)
Definition h5py_File (fs : gmap string H5File) (filename : string) : result H5File :=
  match fs !! filename with
  | Some ds => Ok ds
  | None => Raise (IOError_open filename)
  end.

(** A numpy array of one or two dimensions. *)
Inductive ndarray : Type :=
| Arr1 (a : list Z)
| Arr2 (rows : list (list Z)).

(** [pygeobase.object_base.Image] *)
Record Image : Type := mk_Image {
  lon : ndarray;
  lat : ndarray;
  data : gmap string ndarray;
  metadata : gmap string (gmap string Z);
  timestamp : option Datetime.datetime
}.

(** [a.shape == (r, c)] *)
Definition has_shape (r c : nat) (a : ndarray) : Prop :=
  match a with
  | Arr1 _ => False
  | Arr2 rows => length rows = r /\ Forall (fun row => length row = c) rows
  end.

(** [flat] is the raster [raster] of shape [(r, c)] read row by row once
    its flip along the leading axis is undone. *)
Definition raster_of (r c : nat) (flat raster : ndarray) : Prop :=
  match flat, raster with
  | Arr1 a, Arr2 rows =>
      has_shape r c (Arr2 rows) /\ length a = (r * c)%nat /\
      a = Np.flatten (Np.flipud rows)
  | _, _ => False
  end.

Inductive warning : Type :=
| RenameWarning.

(** The literal text of the messages that [interface.py] itself gives to
    its exceptions and warnings; the formatted values are the arguments
    of the constructors. *)
Definition message (e : exn) : string :=
  match e with
  | IOError_multiple_overpasses _ =>
      "Multiple overpasses found in file, please specify one overpass to load: "
  | NameError_field _ =>
      "Field does not exists. Try deactivating overpass option."
  | ValueError_grid_1d =>
      "Grid is 1-dimensional, to read a 2d image, a 2d grid - e.g. from bbox of the global grid -is required."
  | ValueError_shape_mismatch _ =>
      "The grid shape  does not match with the shape of the loaded data. If you have passed a subgrid with gaps (e.g. landpoints only) you have to set `flatten=True`"
  | _ => ""
  end.

Definition warning_message (w : warning) : string :=
  match w with
  | RenameWarning =>
      "Renaming variable only possible if overpass in given. Use names as in file."
  end.

Definition recommends_flatten (e : exn) : bool :=
  PyStr.contains "flatten=True" (message e).

(** ** SPL3SMP_Img *)

Module SPL3SMP_Img.

Record t : Type := mk {
  filename : string;
  mode : string;
  grid : CellGrid;
  overpass : option string;
  overpass_templ : string;
  var_overpass_str : bool;
  parameters : list string;
  flatten : bool
}.

(** [self.overpass = v] *)
Definition set_overpass (v : option string) (self : t) : t :=
  {| filename := filename self; mode := mode self; grid := grid self;
     overpass := v; overpass_templ := overpass_templ self;
     var_overpass_str := var_overpass_str self;
     parameters := parameters self; flatten := flatten self |}.

(** The same reader configured with another [flatten]. *)
Definition set_flatten (v : bool) (self : t) : t :=
  {| filename := filename self; mode := mode self; grid := grid self;
     overpass := overpass self; overpass_templ := overpass_templ self;
     var_overpass_str := var_overpass_str self;
     parameters := parameters self; flatten := v |}.

(** The two forms of the constructor's [parameter] argument. *)
Inductive parameter_arg : Type :=
| ParamStr (s : string)
| ParamList (l : list string).

Section Init.

(** [EASE36CellGrid()] of [smap_io.grid], the default grid. *)
Variable EASE36CellGrid : CellGrid.

(** [__init__] *)
Definition init (filename mode : string) (parameter : parameter_arg)
    (overpass : option string) (var_overpass_str : bool)
    (grid : option CellGrid) (flatten : bool) : t :=
  let grid := match grid with None => EASE36CellGrid | Some g => g end in
  let parameter :=
    match parameter with
    | ParamList l => l
    | ParamStr s => [s]
    end in
  {| filename := filename; mode := mode; grid := grid;
     overpass := match overpass with
                 | Some o => Some (PyStr.upper o)
                 | None => None
                 end;
     overpass_templ := "Soil_Moisture_Retrieval_Data{orbit}";
     var_overpass_str := var_overpass_str;
     parameters := parameter;
     flatten := flatten |}.

End Init.

(** The list [overpasses] collected from the group names. *)
Definition find_overpasses (templ : string) (keys : list string) : list string :=
  omap (fun k => match Parse.parse templ k with
                 | Some orbit => Some (PyStr.drop 1 orbit)
                 | None => None
                 end) keys.

(** Lines 114-128: the reader after its overpass is resolved. *)
Definition resolve_overpass (self : t) (ds : H5File) : result t :=
  match overpass self with
  | None =>
      let overpasses := find_overpasses (overpass_templ self) (h5_keys ds) in
      if (1 <? length overpasses)%nat
      then Raise (IOError_multiple_overpasses overpasses)
      else match overpasses with
           | o :: _ => Ok (set_overpass (Some (PyStr.upper o)) self)
           | [] => Raise IndexError_list
           end
  | Some o =>
      if String.eqb o "AM" || String.eqb o "PM" then Ok self
      else Raise AssertionError
  end.

(** Lines 132-133: the name of the group to read. *)
Definition sm_field (self : t) : string :=
  let overpass_str :=
    match overpass self with
    | Some o => if PyStr.truthy o then "_" ++ PyStr.upper o else ""
    | None => ""
    end in
  Parse.format (overpass_templ self) overpass_str.

(** Lines 140-143: the suffix of the field names inside the group. *)
Definition field_suffix (overpass : option string) : string :=
  match overpass with
  | Some o => if PyStr.truthy o then (if String.eqb o "PM" then "_pm" else "") else ""
  | None => ""
  end.

(** Lines 153-161: masking by [valid_min], [valid_max] and [_FillValue];
    a missing attribute raises [KeyError], which is caught and passed.
    The values and the three attributes are integers of one dtype, for
    which [np.where] returns an array of that dtype. *)
Definition mask (attrs : gmap string Z) (data : list Z) : list Z :=
  match attrs !! "_FillValue", attrs !! "valid_min", attrs !! "valid_max" with
  | Some fill_value, Some valid_min, Some valid_max =>
      Np.where_ (fun v => (v <? valid_min)%Z || (v >? valid_max)%Z) fill_value data
  | _, _, _ => data
  end.

(** Lines 164-165: the attributes copied one by one into a new dict. *)
Definition copy_attrs (attrs : gmap string Z) : gmap string Z :=
  map_fold (fun key v metadata => <[key := v]> metadata) ∅ attrs.

(** Lines 167-176: the name under which a parameter is returned. *)
Definition ret_param_name (var_overpass_str : bool) (overpass : option string)
    (parameter : string) : string * list warning :=
  if var_overpass_str then
    match overpass with
    | None => (parameter, [RenameWarning])
    | Some o =>
        if negb (PyStr.endswith parameter ("_" ++ PyStr.lower o))
        then (parameter ++ "_" ++ PyStr.lower o, [])
        else (parameter, [])
    end
  else (parameter, []).

(** What one pass through the loop body stores, and the warnings it emits. *)
Record loaded : Type := mk_loaded {
  ret_name : string;
  ret_data : list Z;
  ret_meta : gmap string Z;
  ret_warn : list warning
}.

(** Lines 146-176: the loop body up to the two stores. The grid of a
    reader is never [None] ([__init__] puts the default grid in its
    place), so the reindexing of line 151 always runs. *)
Definition read_parameter (self : t) (group : Group) (parameter : string)
    : result loaded :=
  let overpass := overpass self in
  param ← h5_getitem group (parameter ++ field_suffix overpass);
  data ← Np.fancy_index (Np.flatten (Np.flipud (values param)))
                        (activegpis (grid self));
  let data := mask (attrs param) data in
  let metadata := copy_attrs (attrs param) in
  let '(name, w) := ret_param_name (var_overpass_str self) overpass parameter in
  Ok {| ret_name := name; ret_data := data; ret_meta := metadata; ret_warn := w |}.

(** Lines 178-179: the two stores that end the loop body. *)
Definition store_data (return_data : gmap string (list Z)) (x : loaded)
    : gmap string (list Z) :=
  <[ret_name x := ret_data x]> return_data.

Definition store_meta (return_meta : gmap string (gmap string Z)) (x : loaded)
    : gmap string (gmap string Z) :=
  <[ret_name x := ret_meta x]> return_meta.

(** Lines 145-179: the loop over the requested parameters, started with
    the two dicts built so far. *)
Fixpoint read_parameters (self : t) (group : Group) (ps : list string)
    (return_data : gmap string (list Z))
    (return_meta : gmap string (gmap string Z))
    : result (gmap string (list Z) * gmap string (gmap string Z)) * list warning :=
  match ps with
  | [] => (Ok (return_data, return_meta), [])
  | parameter :: ps' =>
      match read_parameter self group parameter with
      | Raise e => (Raise e, [])
      | Ok x =>
          let '(r, ws) :=
            read_parameters self group ps'
              (store_data return_data x) (store_meta return_meta x) in
          (r, (ret_warn x ++ ws)%list)
      end
  end.

(** Lines 130-179, for a reader whose overpass is resolved. *)
Definition read_fields (self : t) (ds : H5File)
    : result (gmap string (list Z) * gmap string (gmap string Z)) * list warning :=
  match ds !! sm_field self with
  | None => (Raise (NameError_field (sm_field self)), [])
  | Some group => read_parameters self group (parameters self) ∅ ∅
  end.

(** The dict comprehension of lines 207-210; [reshape] raises for the
    first array whose size is not [r * c]. *)
Definition reshape_all (return_data : gmap string (list Z)) (r c : nat)
    : result (gmap string ndarray) :=
  if decide (map_Forall (fun _ d => length d = (r * c)%nat) return_data)
  then Ok ((fun d => Arr2 (Np.flipud (Np.chunks r c d))) <$> return_data)
  else Raise ValueError_reshape.

(** Lines 181-212: the Image returned. *)
Definition shape_image (self : t) (return_data : gmap string (list Z))
    (return_meta : gmap string (gmap string Z))
    (timestamp : option Datetime.datetime) : result Image :=
  let g := grid self in
  if flatten self then
    Ok {| lon := Arr1 (activearrlon g); lat := Arr1 (activearrlat g);
          data := Arr1 <$> return_data; metadata := return_meta;
          timestamp := timestamp |}
  else
    match subset_shape g with
    | [r; c] =>
        if negb (Np.prod (subset_shape g) =? length (activearrlon g))%nat
           || negb (Np.prod (subset_shape g) =? length (activearrlat g))%nat
        then Raise (ValueError_shape_mismatch (subset_shape g))
        else
          lons ← Np.flipud <$> Np.reshape2 (activearrlon g) r c;
          lats ← Np.flipud <$> Np.reshape2 (activearrlat g) r c;
          data ← reshape_all return_data r c;
          Ok {| lon := Arr2 lons; lat := Arr2 lats; data := data;
                metadata := return_meta; timestamp := timestamp |}
    | _ => Raise ValueError_grid_1d
    end.

(** What a call of [read] leaves behind: the Image returned or the
    exception raised, the reader afterwards, the warnings emitted. *)
Record outcome : Type := mk_outcome {
  returned : result Image;
  self_after : t;
  warnings : list warning
}.

(** [read] *)
Definition read (fs : gmap string H5File) (self : t)
    (timestamp : option Datetime.datetime) : outcome :=
  match h5py_File fs (filename self) with
  | Raise e => {| returned := Raise e; self_after := self; warnings := [] |}
  | Ok ds =>
      match resolve_overpass self ds with
      | Raise e => {| returned := Raise e; self_after := self; warnings := [] |}
      | Ok self' =>
          match read_fields self' ds with
          | (Raise e, ws) =>
              {| returned := Raise e; self_after := self'; warnings := ws |}
          | (Ok (return_data, return_meta), ws) =>
              {| returned := shape_image self' return_data return_meta timestamp;
                 self_after := self'; warnings := ws |}
          end
      end
  end.

End SPL3SMP_Img.

(** ** SPL3SMP_Ds *)

Module SPL3SMP_Ds.
Import Datetime.

Definition tstamps_for_daterange (start_date end_date : datetime)
    : result (list datetime) :=
    let diff := sub end_date start_date in
    for_each (fun i => add_days start_date i) (py_range (days diff + 1)).

End SPL3SMP_Ds.

(** ** Sample files, grids and readers *)

Module Sample.
Import SPL3SMP_Img.

Definition rows4 : list (list Z) :=
  [[0; 1; 2; 3]; [4; 5; 6; 7]; [8; 9; 10; 11]; [12; 13; 14; 15]]%Z.

Definition rows4_other : list (list Z) :=
  [[20; 21; 22; 23]; [24; 25; 26; 27]; [28; 29; 30; 31]; [32; 33; 34; 35]]%Z.

Definition range_attrs : gmap string Z :=
  {[ "_FillValue" := (-9999)%Z; "valid_min" := 2%Z; "valid_max" := 13%Z ]}.

(** Attributes with which the masking is skipped. *)
Definition partial_attrs : gmap string Z :=
  {[ "valid_max" := 40%Z ]}.

(** A file with the AM group only. *)
Definition ds_am : H5File :=
  {[ "Metadata" := ∅;
     "Soil_Moisture_Retrieval_Data_AM" :=
       {[ "soil_moisture" := mk_Dataset rows4 ∅;
          "surface_flag" := mk_Dataset rows4 range_attrs ]} ]}.

(** A file with both groups; the PM group also has a field whose own
    name ends with the suffix. *)
Definition ds_both : H5File :=
  {[ "Soil_Moisture_Retrieval_Data_AM" :=
       {[ "soil_moisture" := mk_Dataset rows4 ∅ ]};
     "Soil_Moisture_Retrieval_Data_PM" :=
       {[ "soil_moisture_pm" := mk_Dataset rows4 ∅;
          "soil_moisture_pm_pm" := mk_Dataset rows4_other partial_attrs ]} ]}.

(** A file of an old product version: one group, without suffix. *)
Definition ds_old : H5File :=
  {[ "Metadata" := ∅;
     "Soil_Moisture_Retrieval_Data" :=
       {[ "soil_moisture" := mk_Dataset rows4 ∅ ]} ]}.

Definition fs : gmap string H5File :=
  {[ "am.h5" := ds_am; "both.h5" := ds_both; "old.h5" := ds_old ]}.




(** All 16 cells of the 4 x 4 raster, in file order. *)
Definition grid16 : CellGrid :=
  {| activegpis := py_range 16;
     activearrlon := [0; 1; 2; 3; 0; 1; 2; 3; 0; 1; 2; 3; 0; 1; 2; 3]%Z;
     activearrlat := [0; 0; 0; 0; 1; 1; 1; 1; 2; 2; 2; 2; 3; 3; 3; 3]%Z;
     subset_shape := [4; 4]%nat |}.

(** Three scattered cells: a subset that is not rectangular. *)
Definition grid_land : CellGrid :=
  {| activegpis := [0; 5; 10]%Z;
     activearrlon := [0; 1; 2]%Z;
     activearrlat := [0; 1; 2]%Z;
     subset_shape := [3]%nat |}.

(** Three cells with a 2-D shape reported for four. *)
Definition grid_gaps : CellGrid :=
  {| activegpis := [0; 1; 4]%Z;
     activearrlon := [0; 1; 0]%Z;
     activearrlat := [0; 0; 1]%Z;
     subset_shape := [2; 2]%nat |}.

Definition reader (filename : string) (parameter : parameter_arg)
    (overpass : option string) (grid : CellGrid) (flatten : bool) : t :=
  init grid16 filename "r" parameter overpass true (Some grid) flatten.

End Sample.

(** * Properties *)

(** ** The error monad and loops *)

Lemma for_each_total {A B : Type} (body : A -> result B) (f : A -> B) (xs : list A) :
  Forall (fun x => body x = Ok (f x)) xs ->
  for_each body xs = Ok (f <$> xs).
Proof.
  induction 1 as [|x xs Hx _ IH]; simpl; [reflexivity|].
  rewrite Hx; simpl. rewrite IH. reflexivity.
Qed.

Lemma for_each_length {A B : Type} (body : A -> result B) (xs : list A) (ys : list B) :
  for_each body xs = Ok ys -> length ys = length xs.
Proof.
  revert ys; induction xs as [|x xs IH]; intros ys; simpl.
  - intros [= <-]. reflexivity.
  - destruct (body x) as [y|e]; simpl; [|discriminate].
    destruct (for_each body xs) as [ys'|e]; simpl; [|discriminate].
    intros [= <-]. simpl. f_equal. apply IH. reflexivity.
Qed.

Lemma elem_of_py_range (n i : Z) : i ∈ py_range n <-> (0 <= i < n)%Z.
Proof.
  unfold py_range. rewrite list_elem_of_fmap. split.
  - intros (k & -> & Hk). apply elem_of_seq in Hk. lia.
  - intros Hi. exists (Z.to_nat i). split; [lia|]. apply elem_of_seq. lia.
Qed.

Lemma length_py_range (n : Z) : length (py_range n) = Z.to_nat n.
Proof. unfold py_range. rewrite length_fmap, length_seq. reflexivity. Qed.

Lemma lookup_py_range (n : Z) (i : nat) :
  (i < Z.to_nat n)%nat -> py_range n !! i = Some (Z.of_nat i).
Proof.
  intros Hi. unfold py_range. rewrite list_lookup_fmap, lookup_seq_lt by exact Hi.
  reflexivity.
Qed.

(** ** SPL3SMP_Ds.tstamps_for_daterange *)

Section Daterange.
Import Datetime SPL3SMP_Ds.

(** The whole days between two datetimes, when the first is not later. *)
Lemma days_sub_le (s e : datetime) :
  valid s -> valid e -> le s e ->
  (0 <= days (sub e s) <= ordinal e - ordinal s)%Z /\
  (usec s <= usec e -> days (sub e s) = ordinal e - ordinal s)%Z /\
  (usec e < usec s -> days (sub e s) = ordinal e - ordinal s - 1)%Z.
Proof.
  intros [Hs1 Hs2] [He1 He2] Hle. unfold sub; simpl.
  unfold USEC_PER_DAY in *.
  rewrite Z.div_add_l by lia.
  assert (Hcases : (usec s <= usec e /\ (usec e - usec s) / 86400000000 = 0)%Z \/
                   (usec e < usec s /\ (usec e - usec s) / 86400000000 = -1)%Z).
  { destruct (Z_le_gt_dec (usec s) (usec e)) as [H|H].
    - left. split; [exact H|]. apply Z.div_small. lia.
    - right. split; [lia|]. symmetry.
      apply (Z.div_unique_pos _ _ _ (usec e - usec s + 86400000000)); lia. }
  unfold le in Hle. lia.
Qed.

Lemma days_sub_lt (s e : datetime) :
  valid s -> valid e -> lt e s -> (days (sub e s) + 1 <= 0)%Z.
Proof.
  intros [Hs1 Hs2] [He1 He2] Hlt. unfold sub; simpl.
  unfold USEC_PER_DAY in *.
  rewrite Z.div_add_l by lia.
  assert (Hb : (-1 <= (usec e - usec s) / 86400000000 <= 0)%Z).
  { split.
    - apply Z.div_le_lower_bound; lia.
    - assert ((usec e - usec s) / 86400000000 < 1)%Z; [|lia].
      apply Z.div_lt_upper_bound; lia. }
  assert (Hneg : (usec e < usec s -> (usec e - usec s) / 86400000000 < 0)%Z).
  { intros H. apply Z.div_lt_upper_bound; lia. }
  unfold lt in Hlt. lia.
Qed.

(** Every day of the loop is within the range of [datetime]. *)
Lemma tstamps_for_daterange_eq (s e : datetime) :
  valid s -> valid e -> le s e ->
  tstamps_for_daterange s e =
    Ok ((fun i => mk_datetime (ordinal s + i) (usec s)) <$> py_range (days (sub e s) + 1)).
Proof.
  intros Hs He Hle. unfold tstamps_for_daterange.
  apply for_each_total. apply Forall_forall. intros i Hi.
  apply elem_of_py_range in Hi.
  destruct (days_sub_le s e Hs He Hle) as (Hd & _ & _).
  destruct Hs as [Hs1 Hs2], He as [He1 He2].
  unfold add_days.
  replace ((0 <? ordinal s + i)%Z) with true by (symmetry; apply Z.ltb_lt; lia).
  replace ((ordinal s + i <=? MAXORDINAL)%Z) with true by (symmetry; apply Z.leb_le; lia).
  reflexivity.
Qed.

(** For datetimes [s <= e] the loop never leaves the range of
    [datetime] and returns [(e - s).days + 1] entries; entry [i] is [s]
    moved forward by [i] whole days. The last entry is [e] exactly when
    [s] and [e] have the same time of day. *)
Lemma tstamps_for_daterange_days (s e : datetime) :
  valid s -> valid e -> le s e ->
  exists l : list datetime,
    tstamps_for_daterange s e = Ok l /\
    length l = Z.to_nat (days (sub e s) + 1) /\
    (forall i : nat, (i < length l)%nat ->
       l !! i = Some (mk_datetime (ordinal s + Z.of_nat i) (usec s))) /\
    (forall (i : nat) (a b : datetime), l !! i = Some a -> l !! S i = Some b ->
       ordinal b = (ordinal a + 1)%Z /\ usec b = usec a) /\
    NoDup l /\
    head l = Some s /\
    last l = Some (mk_datetime (ordinal s + days (sub e s)) (usec s)) /\
    (usec e = usec s <-> last l = Some e) /\
    (forall d, last l = Some d -> le d e /\ (ordinal e - ordinal d <= 1)%Z).
Proof.
  intros Hs He Hle.
  destruct (days_sub_le s e Hs He Hle) as (Hd & Hsame & Hless).
  set (n := days (sub e s)) in *.
  set (f := fun i : Z => mk_datetime (ordinal s + i) (usec s)).
  exists (f <$> py_range (n + 1)).
  assert (Hlen : length (f <$> py_range (n + 1)) = Z.to_nat (n + 1))
    by (rewrite length_fmap; apply length_py_range).
  assert (Hidx : forall i : nat, (i < Z.to_nat (n + 1))%nat ->
            (f <$> py_range (n + 1)) !! i = Some (f (Z.of_nat i))).
  { intros i Hi. rewrite list_lookup_fmap, lookup_py_range by exact Hi. reflexivity. }
  assert (Hlast : last (f <$> py_range (n + 1)) = Some (f n)).
  { rewrite last_lookup, Hlen, Hidx by lia. f_equal. f_equal. lia. }
  split; [apply tstamps_for_daterange_eq; assumption|].
  split; [exact Hlen|].
  split; [intros i Hi; apply Hidx; lia|].
  split.
  { intros i a b Ha Hb.
    assert (Hi : (S i < Z.to_nat (n + 1))%nat)
      by (rewrite <- Hlen; eapply lookup_lt_Some; exact Hb).
    rewrite Hidx in Ha by lia. rewrite Hidx in Hb by lia.
    injection Ha as <-. injection Hb as <-. unfold f; simpl. lia. }
  split.
  { apply NoDup_fmap_2.
    - intros x y [= Hxy]. lia.
    - unfold py_range. apply NoDup_fmap_2; [intros x y; lia|apply NoDup_seq]. }
  split.
  { rewrite head_lookup, Hidx by lia. unfold f. simpl.
    rewrite Z.add_0_r. destruct s; reflexivity. }
  split; [exact Hlast|].
  split.
  { rewrite Hlast. unfold f. split.
    - intros Heq. rewrite Hsame by lia. rewrite <- Heq.
      destruct e; simpl. f_equal. f_equal. lia.
    - intros [= Heq]. rewrite <- Heq. reflexivity. }
  intros d. rewrite Hlast. intros [= <-]. unfold f, le; simpl.
  destruct (Z_le_gt_dec (usec s) (usec e)) as [H|H].
  - rewrite Hsame by exact H. lia.
  - rewrite Hless by lia. lia.
Qed.

(** With an end at a later time of day than the start, the last entry
    is the start's time of day on the last day, not the end itself. *)
Lemma tstamps_for_daterange_later_time_of_day :
  tstamps_for_daterange (mk_datetime 737425 0) (mk_datetime 737426 43200000000)
    = Ok [mk_datetime 737425 0; mk_datetime 737426 0].
Proof. reflexivity. Qed.

(** C6: for two dates with the end not before the start (two calendar
    dates, or two datetimes at the same time of day),
    [tstamps_for_daterange] returns exactly [(end - start).days + 1]
    entries, the number of calendar days from start to end; each entry is
    the one before it moved forward by one calendar day, so the entries
    are strictly increasing without gaps and without duplicates; the
    first entry is the start and the last entry is the end. The list is
    computed from the two dates alone. *)
Theorem tstamps_for_daterange_dates (s e : datetime) :
  valid s -> valid e -> usec e = usec s -> le s e ->
  exists l : list datetime,
    tstamps_for_daterange s e = Ok l /\
    days (sub e s) = (ordinal e - ordinal s)%Z /\
    length l = Z.to_nat (days (sub e s) + 1) /\
    (forall i : nat, (i < length l)%nat ->
       l !! i = Some (mk_datetime (ordinal s + Z.of_nat i) (usec s))) /\
    (forall (i : nat) (a b : datetime), l !! i = Some a -> l !! S i = Some b ->
       ordinal b = (ordinal a + 1)%Z /\ usec b = usec a /\ lt a b) /\
    NoDup l /\
    head l = Some s /\
    last l = Some e.
Proof.
  intros Hs He Hu Hle.
  destruct (tstamps_for_daterange_days s e Hs He Hle)
    as (l & Hl & Hlen & Hidx & Hstep & Hnd & Hhead & _ & Hlast & _).
  destruct (days_sub_le s e Hs He Hle) as (_ & Hsame & _).
  exists l. split; [exact Hl|]. split; [apply Hsame; lia|].
  split; [exact Hlen|]. split; [exact Hidx|].
  split.
  { intros i a b Ha Hb. destruct (Hstep i a b Ha Hb) as [Ho Hus].
    split; [exact Ho|]. split; [exact Hus|]. unfold lt. lia. }
  split; [exact Hnd|]. split; [exact Hhead|]. apply Hlast. exact Hu.
Qed.

Lemma tstamps_for_daterange_dates_witness :
  exists l : list datetime,
    tstamps_for_daterange (mk_datetime 737425 0) (mk_datetime 737427 0) = Ok l /\
    length l = 3%nat /\
    head l = Some (mk_datetime 737425 0) /\
    last l = Some (mk_datetime 737427 0).
Proof.
  destruct (tstamps_for_daterange_dates (mk_datetime 737425 0) (mk_datetime 737427 0))
    as (l & Hl & _ & Hlen & _ & _ & _ & Hhead & Hlast).
  - unfold valid, MAXORDINAL, USEC_PER_DAY; simpl; lia.
  - unfold valid, MAXORDINAL, USEC_PER_DAY; simpl; lia.
  - reflexivity.
  - unfold le; simpl; lia.
  - exists l. split; [exact Hl|]. split; [exact Hlen|]. split; [exact Hhead|exact Hlast].
Defined.

(** C8: when the end of the range is earlier than its start, by a whole
    day or by any smaller amount, the loop body never runs and the empty
    list is returned; nothing is raised. *)
Theorem tstamps_for_daterange_reversed (s e : datetime) :
  valid s -> valid e -> lt e s ->
  tstamps_for_daterange s e = Ok [].
Proof.
  intros Hs He Hlt. unfold tstamps_for_daterange.
  pose proof (days_sub_lt s e Hs He Hlt) as Hd.
  unfold py_range. replace (Z.to_nat (days (sub e s) + 1)) with 0%nat by lia.
  reflexivity.
Qed.

Lemma tstamps_for_daterange_reversed_witness :
  tstamps_for_daterange (mk_datetime 737427 0) (mk_datetime 737425 0) = Ok [].
Proof.
  apply tstamps_for_daterange_reversed.
  - unfold valid, MAXORDINAL, USEC_PER_DAY; simpl; lia.
  - unfold valid, MAXORDINAL, USEC_PER_DAY; simpl; lia.
  - unfold lt; simpl; lia.
Defined.

End Daterange.

(** ** numpy *)

Section Numpy.

Lemma getitem_in_range (a : list Z) (i : nat) (v : Z) :
  a !! i = Some v -> Np.getitem a (Z.of_nat i) = Ok v.
Proof.
  intros Hv. pose proof (lookup_lt_Some _ _ _ Hv) as Hlt.
  unfold Np.getitem.
  replace (Z.of_nat i <? 0)%Z with false by (symmetry; apply Z.ltb_ge; lia).
  replace (0 <=? Z.of_nat i)%Z with true by (symmetry; apply Z.leb_le; lia).
  replace (Z.of_nat i <? Z.of_nat (length a))%Z with true
    by (symmetry; apply Z.ltb_lt; lia).
  simpl. rewrite Nat2Z.id, Hv. reflexivity.
Qed.

Lemma fancy_index_length (a idx b : list Z) :
  Np.fancy_index a idx = Ok b -> length b = length idx.
Proof. apply for_each_length. Qed.

(** Indexing with all positions in order returns the array. *)
Lemma fancy_index_identity (a : list Z) :
  Np.fancy_index a (py_range (Z.of_nat (length a))) = Ok a.
Proof.
  unfold Np.fancy_index.
  rewrite (for_each_total _ (fun i => default 0%Z (a !! Z.to_nat i))).
  - f_equal. apply list_eq. intros i.
    destruct (a !! i) as [v|] eqn:Hv.
    + pose proof (lookup_lt_Some _ _ _ Hv) as Hlt.
      rewrite list_lookup_fmap, lookup_py_range by lia. simpl.
      rewrite Nat2Z.id, Hv. reflexivity.
    + apply lookup_ge_None. rewrite length_fmap, length_py_range.
      apply lookup_ge_None in Hv. lia.
  - apply Forall_forall. intros i Hi. apply elem_of_py_range in Hi.
    destruct (lookup_lt_is_Some_2 a (Z.to_nat i)) as [v Hv]; [lia|].
    rewrite Hv. simpl. rewrite <- (Z2Nat.id i) at 1 by lia.
    apply getitem_in_range. exact Hv.
Qed.

Lemma length_chunks (r c : nat) (a : list Z) : length (Np.chunks r c a) = r.
Proof. revert a; induction r as [|r IH]; intros a; simpl; [reflexivity|]. rewrite IH. reflexivity. Qed.

Lemma Forall_length_chunks (r c : nat) (a : list Z) :
  length a = (r * c)%nat ->
  Forall (fun row => length row = c) (Np.chunks r c a).
Proof.
  revert a; induction r as [|r IH]; intros a Ha; simpl; constructor.
  - rewrite length_take. lia.
  - apply IH. rewrite length_drop. lia.
Qed.

Lemma concat_chunks (r c : nat) (a : list Z) :
  length a = (r * c)%nat -> concat (Np.chunks r c a) = a.
Proof.
  revert a; induction r as [|r IH]; intros a Ha; simpl.
  - destruct a; [reflexivity|discriminate].
  - rewrite IH by (rewrite length_drop; lia). apply take_drop.
Qed.

Lemma length_concat_rows (c : nat) (rows : list (list Z)) :
  Forall (fun row => length row = c) rows ->
  length (concat rows) = (length rows * c)%nat.
Proof.
  induction 1 as [|row rows Hrow _ IH]; simpl; [reflexivity|].
  rewrite length_app, IH, Hrow. reflexivity.
Qed.

Lemma chunks_concat (c : nat) (rows : list (list Z)) :
  Forall (fun row => length row = c) rows ->
  Np.chunks (length rows) c (concat rows) = rows.
Proof.
  induction 1 as [|row rows Hrow _ IH]; simpl; [reflexivity|].
  subst c. rewrite take_app_length, drop_app_length, IH. reflexivity.
Qed.

(** A raster of the shape of the grid, flipped, read row by row after
    the flip is undone, is the flat array it was made from. *)
Lemma flatten_flipud_reshape (r c : nat) (a : list Z) :
  length a = (r * c)%nat ->
  Np.flatten (Np.flipud (Np.flipud (Np.chunks r c a))) = a.
Proof.
  intros Ha. unfold Np.flatten, Np.flipud. rewrite rev_involutive.
  apply concat_chunks. exact Ha.
Qed.

End Numpy.

(** ** str *)

Section Strings.
Import PyStr.

Lemma str_length_append (a b : string) :
  String.length (a ++ b) = (String.length a + String.length b)%nat.
Proof. induction a as [|ch a IH]; simpl; [reflexivity|]. rewrite IH. reflexivity. Qed.

Lemma str_drop_append (a b : string) : drop (String.length a) (a ++ b) = b.
Proof. induction a as [|ch a IH]; simpl; [destruct b; reflexivity|exact IH]. Qed.

Lemma endswith_append (a b : string) : endswith (a ++ b) b = true.
Proof.
  unfold endswith. rewrite str_length_append.
  replace (String.length b <=? String.length a + String.length b)%nat with true
    by (symmetry; apply Nat.leb_le; lia).
  replace (String.length a + String.length b - String.length b)%nat
    with (String.length a) by lia.
  rewrite str_drop_append. apply String.eqb_refl.
Qed.

End Strings.

(** ** SPL3SMP_Img: construction *)

Section Reader.
Import SPL3SMP_Img.

(** C10: a parameter given as the single string [p] is stored as the
    list [[p]], the reader built is the one built from the list [[p]],
    so every [read] of the two behaves the same; a parameter given as a
    list is stored as it is: the stored parameters are a list for both
    forms of the argument. *)
Theorem init_single_parameter (default_grid : CellGrid) (filename mode p : string)
    (overpass : option string) (var_overpass_str : bool)
    (grid : option CellGrid) (flatten : bool) :
  parameters (init default_grid filename mode (ParamStr p) overpass
                var_overpass_str grid flatten) = [p] /\
  init default_grid filename mode (ParamStr p) overpass var_overpass_str grid flatten
    = init default_grid filename mode (ParamList [p]) overpass var_overpass_str
        grid flatten /\
  (forall fs ts,
     read fs (init default_grid filename mode (ParamStr p) overpass
                var_overpass_str grid flatten) ts
     = read fs (init default_grid filename mode (ParamList [p]) overpass
                  var_overpass_str grid flatten) ts) /\
  (forall l : list string,
     parameters (init default_grid filename mode (ParamList l) overpass
                   var_overpass_str grid flatten) = l).
Proof. repeat split. Qed.

(** ** SPL3SMP_Img.read: the name of the returned variable *)

(** The naming code of lines 167-176 taken by itself: with
    output-suffixing enabled and an overpass [o], the name is the
    requested name followed by ["_"] and [o] in lower case, unless the
    requested name ends with that suffix already; with output-suffixing
    enabled and the overpass [None] the name is unchanged and one warning
    is emitted; with output-suffixing disabled the name is unchanged and
    nothing is emitted. The loop body stores each parameter under the
    name so computed. *)
Lemma ret_param_name_cases (parameter : string) :
  (forall o : string,
     ret_param_name true (Some o) parameter =
       (if PyStr.endswith parameter ("_" ++ PyStr.lower o)
        then parameter else parameter ++ "_" ++ PyStr.lower o, [])) /\
  (forall o : string,
     PyStr.endswith (ret_param_name true (Some o) parameter).1
                    ("_" ++ PyStr.lower o) = true) /\
  ("_" ++ PyStr.lower "AM" = "_am" /\ "_" ++ PyStr.lower "PM" = "_pm") /\
  ret_param_name true (Some "PM") "soil_moisture" = ("soil_moisture_pm", []) /\
  ret_param_name true (Some "PM") "soil_moisture_pm" = ("soil_moisture_pm", []) /\
  ret_param_name true None parameter = (parameter, [RenameWarning]) /\
  (forall overpass : option string,
     ret_param_name false overpass parameter = (parameter, [])) /\
  (forall (self : t) (group : Group) (x : loaded),
     read_parameter self group parameter = Ok x ->
     (ret_name x, ret_warn x) =
       ret_param_name (var_overpass_str self) (overpass self) parameter).
Proof.
  split.
  { intros o. unfold ret_param_name.
    destruct (PyStr.endswith parameter ("_" ++ PyStr.lower o)); reflexivity. }
  split.
  { intros o. unfold ret_param_name.
    destruct (PyStr.endswith parameter ("_" ++ PyStr.lower o)) eqn:E; simpl.
    - exact E.
    - apply (endswith_append parameter ("_" ++ PyStr.lower o)). }
  split; [split; reflexivity|].
  split; [reflexivity|].
  split; [reflexivity|].
  split; [reflexivity|].
  split; [intros overpass; reflexivity|].
  intros self group x. unfold read_parameter.
  destruct (h5_getitem group _) as [param|e]; simpl; [|discriminate].
  destruct (Np.fancy_index _ _) as [raw|e]; simpl; [|discriminate].
  destruct (ret_param_name _ _ _) as [name w]. intros [= <-]. reflexivity.
Qed.

(** ** SPL3SMP_Img.read: masking *)


Lemma length_mask (attrs : gmap string Z) (data : list Z) :
  length (mask attrs data) = length data.
Proof.
  unfold mask.
  destruct (attrs !! "_FillValue"), (attrs !! "valid_min"), (attrs !! "valid_max");
    try reflexivity.
  unfold Np.where_. apply length_fmap.
Qed.

Lemma mask_skipped (attrs : gmap string Z) (data : list Z) :
  attrs !! "_FillValue" = None \/ attrs !! "valid_min" = None \/
  attrs !! "valid_max" = None ->
  mask attrs data = data.
Proof.
  unfold mask. intros [H|[H|H]]; rewrite H; try reflexivity.
  - destruct (attrs !! "_FillValue"); reflexivity.
  - destruct (attrs !! "_FillValue"), (attrs !! "valid_min"); reflexivity.
Qed.

Lemma copy_attrs_id (attrs : gmap string Z) : copy_attrs attrs = attrs.
Proof.
  unfold copy_attrs.
  apply (map_fold_weak_ind (fun (r : gmap string Z) m => r = m)).
  - reflexivity.
  - intros i x m r _ ->. reflexivity.
Qed.


(** ** SPL3SMP_Img.read: the overpass *)

Lemma resolve_overpass_fixed (self : t) (ds : H5File) (o : string) :
  overpass self = Some o ->
  resolve_overpass self ds =
    if String.eqb o "AM" || String.eqb o "PM" then Ok self else Raise AssertionError.
Proof. intros H. unfold resolve_overpass. rewrite H. reflexivity. Qed.

Lemma resolve_overpass_multiple (self : t) (ds : H5File) :
  overpass self = None ->
  (1 < length (find_overpasses (overpass_templ self) (h5_keys ds)))%nat ->
  resolve_overpass self ds =
    Raise (IOError_multiple_overpasses
             (find_overpasses (overpass_templ self) (h5_keys ds))).
Proof.
  intros H Hlen. unfold resolve_overpass. rewrite H.
  apply Nat.ltb_lt in Hlen. rewrite Hlen. reflexivity.
Qed.

Lemma resolve_overpass_single (self : t) (ds : H5File) (o : string) :
  overpass self = None ->
  find_overpasses (overpass_templ self) (h5_keys ds) = [o] ->
  resolve_overpass self ds = Ok (set_overpass (Some (PyStr.upper o)) self).
Proof. intros H Hone. unfold resolve_overpass. rewrite H, Hone. reflexivity. Qed.

Lemma resolve_overpass_empty (self : t) (ds : H5File) :
  overpass self = None ->
  find_overpasses (overpass_templ self) (h5_keys ds) = [] ->
  resolve_overpass self ds = Raise IndexError_list.
Proof. intros H Hnone. unfold resolve_overpass. rewrite H, Hnone. reflexivity. Qed.

(** What a successful resolution returns. *)
Lemma resolve_overpass_ok (self self' : t) (ds : H5File) :
  resolve_overpass self ds = Ok self' ->
  (is_Some (overpass self) /\ self' = self) \/
  (overpass self = None /\
   exists o : string,
     find_overpasses (overpass_templ self) (h5_keys ds) = [o] /\
     self' = set_overpass (Some (PyStr.upper o)) self).
Proof.
  unfold resolve_overpass. destruct (overpass self) as [o|] eqn:E.
  - destruct (String.eqb o "AM" || String.eqb o "PM"); [|discriminate].
    intros [= <-]. left. split; [eexists; reflexivity|reflexivity].
  - destruct (find_overpasses _ _) as [|o [|o' rest]]; simpl; try discriminate.
    intros [= <-]. right. split; [reflexivity|]. exists o. split; reflexivity.
Qed.

(** The group names that the template matches are what [overpasses]
    is collected from. *)
Lemma elem_of_find_overpasses (templ o : string) (ds : H5File) :
  o ∈ find_overpasses templ (h5_keys ds) <->
  exists k orbit : string,
    is_Some (ds !! k) /\ Parse.parse templ k = Some orbit /\ o = PyStr.drop 1 orbit.
Proof.
  unfold find_overpasses, h5_keys. rewrite list_elem_of_omap. split.
  - intros (k & Hk & Ho). apply list_elem_of_fmap in Hk as ([k' g] & -> & Hkg).
    apply elem_of_map_to_list in Hkg. simpl in Ho.
    destruct (Parse.parse templ k') as [orbit|] eqn:E; [|discriminate].
    injection Ho as <-. exists k', orbit.
    split; [eexists; exact Hkg|]. split; [exact E|reflexivity].
  - intros (k & orbit & [g Hg] & Hp & ->). exists k. split.
    + apply list_elem_of_fmap. exists (k, g). split; [reflexivity|].
      apply elem_of_map_to_list. exact Hg.
    + rewrite Hp. reflexivity.
Qed.

(** C2, the failing case: with the overpass unset and no group name
    matched by the template, [overpasses[0]] raises [IndexError]: no
    Image is returned, the reader is left as it was and the warning of
    the renaming step is never reached. *)
Theorem read_unset_overpass_without_match (fs : gmap string H5File) (self : t)
    (ts : option Datetime.datetime) (ds : H5File) :
  fs !! filename self = Some ds ->
  overpass self = None ->
  find_overpasses (overpass_templ self) (h5_keys ds) = [] ->
  read fs self ts =
    {| returned := Raise IndexError_list; self_after := self; warnings := [] |}.
Proof.
  intros Hfs Hov Hnone. unfold read, h5py_File. rewrite Hfs.
  rewrite (resolve_overpass_empty self ds Hov Hnone). reflexivity.
Qed.

Lemma read_unset_overpass_without_match_witness :
  read Sample.fs
       (Sample.reader "old.h5" (ParamStr "soil_moisture") None Sample.grid16 true)
       None
  = {| returned := Raise IndexError_list;
       self_after :=
         Sample.reader "old.h5" (ParamStr "soil_moisture") None Sample.grid16 true;
       warnings := [] |}.
Proof.
  apply (read_unset_overpass_without_match Sample.fs _ None Sample.ds_old).
  - vm_compute; reflexivity.
  - reflexivity.
  - vm_compute; reflexivity.
Defined.

(** ** SPL3SMP_Img.read: the reader afterwards *)

(** C7 as stated fails: a reader built with the overpass unset holds
    the overpass found in the file once [read] has returned. *)
Lemma read_sets_overpass_counterexample :
  overpass (Sample.reader "am.h5" (ParamStr "soil_moisture") None Sample.grid16 true)
    = None /\
  is_ok (returned (read Sample.fs
           (Sample.reader "am.h5" (ParamStr "soil_moisture") None Sample.grid16 true)
           None)) = true /\
  overpass (self_after (read Sample.fs
              (Sample.reader "am.h5" (ParamStr "soil_moisture") None Sample.grid16 true)
              None))
    = Some "AM".
Proof. repeat split; vm_compute; reflexivity. Qed.

(** Whatever happens after the overpass is resolved, the reader that
    [read] leaves behind is the resolved one. *)
Lemma read_self_after_resolved (fs : gmap string H5File) (self self1 : t)
    (ts : option Datetime.datetime) (ds : H5File) :
  fs !! filename self = Some ds ->
  resolve_overpass self ds = Ok self1 ->
  self_after (read fs self ts) = self1.
Proof.
  intros Hfs Hres. unfold read, h5py_File. rewrite Hfs, Hres.
  destruct (read_fields self1 ds) as [[[rd rm]|e] ws]; reflexivity.
Qed.

Lemma read_self_after_unresolved (fs : gmap string H5File) (self : t)
    (ts : option Datetime.datetime) (ds : H5File) (e : exn) :
  fs !! filename self = Some ds ->
  resolve_overpass self ds = Raise e ->
  read fs self ts = {| returned := Raise e; self_after := self; warnings := [] |}.
Proof.
  intros Hfs Hres. unfold read, h5py_File. rewrite Hfs, Hres. reflexivity.
Qed.

(** C7, as amended: whether [read] returns or raises, it leaves every
    field of the reader other than [overpass] as it was. A reader whose
    overpass was set keeps it. For a reader whose overpass was unset:
    when the file holds exactly one overpass group, the reader holds that
    overpass, in upper case, after the call, whether the rest of the read
    then succeeds or fails; when the file cannot be opened, or holds no
    overpass group or more than one, [read] raises and the reader is
    left as it was. *)
Theorem read_configuration_frame (fs : gmap string H5File) (self : t)
    (ts : option Datetime.datetime) :
  let self' := self_after (read fs self ts) in
  filename self' = filename self /\
  mode self' = mode self /\
  grid self' = grid self /\
  overpass_templ self' = overpass_templ self /\
  var_overpass_str self' = var_overpass_str self /\
  parameters self' = parameters self /\
  flatten self' = flatten self /\
  (is_Some (overpass self) -> self' = self) /\
  (overpass self = None ->
   forall (ds : H5File) (o : string),
     fs !! filename self = Some ds ->
     find_overpasses (overpass_templ self) (h5_keys ds) = [o] ->
     self' = set_overpass (Some (PyStr.upper o)) self) /\
  (overpass self = None ->
   fs !! filename self = None \/
   (exists ds : H5File,
      fs !! filename self = Some ds /\
      length (find_overpasses (overpass_templ self) (h5_keys ds)) <> 1%nat) ->
   self' = self /\ is_ok (returned (read fs self ts)) = false).
Proof.
  assert (Hcases :
    (self_after (read fs self ts) = self /\
     (overpass self = None ->
      is_ok (returned (read fs self ts)) = false /\
      (fs !! filename self = None \/
       exists ds, fs !! filename self = Some ds /\
         length (find_overpasses (overpass_templ self) (h5_keys ds)) <> 1%nat))) \/
    (overpass self = None /\
     exists ds o, fs !! filename self = Some ds /\
       find_overpasses (overpass_templ self) (h5_keys ds) = [o] /\
       self_after (read fs self ts) = set_overpass (Some (PyStr.upper o)) self)).
  { destruct (fs !! filename self) as [ds|] eqn:Hfs.
    2: { left. unfold read, h5py_File. rewrite Hfs. simpl.
         split; [reflexivity|]. intros _. split; [reflexivity|]. left. reflexivity. }
    destruct (resolve_overpass self ds) as [self1|e] eqn:Hres.
    - rewrite (read_self_after_resolved fs self self1 ts ds Hfs Hres).
      destruct (resolve_overpass_ok self self1 ds Hres)
        as [[Hsome ->]|(Hnone & o & Ho & ->)].
      + left. split; [reflexivity|]. intros H. rewrite H in Hsome.
        destruct Hsome as [? [=]].
      + right. split; [exact Hnone|]. exists ds, o.
        split; [reflexivity|]. split; [exact Ho|reflexivity].
    - left. rewrite (read_self_after_unresolved fs self ts ds e Hfs Hres). simpl.
      split; [reflexivity|]. intros Hnone. split; [reflexivity|].
      right. exists ds. split; [reflexivity|].
      unfold resolve_overpass in Hres. rewrite Hnone in Hres.
      destruct (find_overpasses _ _) as [|o [|o' rest]]; simpl in *;
        [lia|discriminate|lia]. }
  cbv zeta.
  destruct Hcases as [[Hself Hfail]|(Hnone & ds & o & Hfs & Ho & Hself)];
    rewrite Hself; do 7 (split; [reflexivity|]).
  - split; [intros _; reflexivity|]. split.
    + intros Hnone ds o Hfs Ho.
      destruct (Hfail Hnone) as [_ [Hno|(ds' & Hfs' & Hlen)]].
      * rewrite Hno in Hfs. discriminate.
      * rewrite Hfs' in Hfs. injection Hfs as ->. rewrite Ho in Hlen.
        simpl in Hlen. lia.
    + intros Hnone _. split; [reflexivity|]. apply (Hfail Hnone).
  - split; [intros [o' Ho']; rewrite Ho' in Hnone; discriminate|]. split.
    + intros _ ds' o' Hfs' Ho'. rewrite Hfs' in Hfs. injection Hfs as ->.
      rewrite Ho' in Ho. injection Ho as ->. reflexivity.
    + intros _ [Hno|(ds' & Hfs' & Hlen)].
      * rewrite Hno in Hfs. discriminate.
      * rewrite Hfs' in Hfs. injection Hfs as ->. rewrite Ho in Hlen.
        simpl in Hlen. lia.
Qed.

(** A read that resolves the overpass and then fails on a missing field
    still leaves the overpass on the reader. *)
Lemma read_configuration_frame_witness :
  is_ok (returned (read Sample.fs
           (Sample.reader "am.h5" (ParamStr "no_such_field") None Sample.grid16 true)
           None)) = false /\
  self_after (read Sample.fs
                (Sample.reader "am.h5" (ParamStr "no_such_field") None
                   Sample.grid16 true)
                None)
  = set_overpass (Some "AM")
      (Sample.reader "am.h5" (ParamStr "no_such_field") None Sample.grid16 true).
Proof.
  split; [vm_compute; reflexivity|].
  destruct (read_configuration_frame Sample.fs
              (Sample.reader "am.h5" (ParamStr "no_such_field") None
                 Sample.grid16 true)
              None)
    as (_ & _ & _ & _ & _ & _ & _ & _ & H & _).
  apply (H eq_refl Sample.ds_am "AM"); vm_compute; reflexivity.
Defined.

(** ** SPL3SMP_Img.read: the loop over the parameters *)

Lemma for_each_Forall {A B : Type} (body : A -> result B) (P : B -> Prop)
    (xs : list A) (ys : list B) :
  (forall x y, body x = Ok y -> P y) ->
  for_each body xs = Ok ys -> Forall P ys.
Proof.
  intros HP. revert ys; induction xs as [|x xs IH]; intros ys; simpl.
  - intros [= <-]. constructor.
  - destruct (body x) as [y|e] eqn:Hy; simpl; [|discriminate].
    destruct (for_each body xs) as [ys'|e]; simpl; [|discriminate].
    intros [= <-]. constructor; [eapply HP; exact Hy|apply IH; reflexivity].
Qed.

(** The loop stores what the body loads, parameter after parameter. *)
Lemma read_parameters_ok (self : t) (group : Group) (ps : list string)
    (xs : list loaded) (rd : gmap string (list Z)) (rm : gmap string (gmap string Z)) :
  for_each (read_parameter self group) ps = Ok xs ->
  read_parameters self group ps rd rm =
    (Ok (foldl store_data rd xs, foldl store_meta rm xs), concat (ret_warn <$> xs)).
Proof.
  revert xs rd rm; induction ps as [|p ps IH]; intros xs rd rm; simpl.
  - intros [= <-]. reflexivity.
  - destruct (read_parameter self group p) as [x|e]; simpl; [|discriminate].
    destruct (for_each (read_parameter self group) ps) as [xs'|e] eqn:E; simpl;
      [|discriminate].
    intros [= <-]. rewrite (IH xs' _ _ eq_refl). reflexivity.
Qed.

Lemma read_parameters_raise (self : t) (group : Group) (ps : list string) (e : exn)
    (rd : gmap string (list Z)) (rm : gmap string (gmap string Z)) :
  for_each (read_parameter self group) ps = Raise e ->
  (read_parameters self group ps rd rm).1 = Raise e.
Proof.
  revert rd rm; induction ps as [|p ps IH]; intros rd rm; simpl; [discriminate|].
  destruct (read_parameter self group p) as [x|e']; simpl; [|intros [= <-]; reflexivity].
  destruct (for_each (read_parameter self group) ps) as [xs'|e'] eqn:E; simpl;
    [discriminate|].
  intros [= <-]. specialize (IH (store_data rd x) (store_meta rm x) eq_refl).
  destruct (read_parameters self group ps _ _) as [r ws]. exact IH.
Qed.

Lemma read_parameter_length (self : t) (group : Group) (p : string) (x : loaded) :
  read_parameter self group p = Ok x ->
  length (ret_data x) = length (activegpis (grid self)).
Proof.
  unfold read_parameter.
  destruct (h5_getitem group _) as [param|e]; simpl; [|discriminate].
  destruct (Np.fancy_index _ _) as [raw|e] eqn:Hraw; simpl; [|discriminate].
  destruct (ret_param_name _ _ _) as [name w]. intros [= <-]. simpl.
  rewrite length_mask. eapply fancy_index_length. exact Hraw.
Qed.

Lemma foldl_store_data_Forall (P : list Z -> Prop) (xs : list loaded)
    (rd : gmap string (list Z)) :
  Forall (fun x => P (ret_data x)) xs ->
  map_Forall (fun _ d => P d) rd ->
  map_Forall (fun _ d => P d) (foldl store_data rd xs).
Proof.
  intros Hxs. revert rd; induction Hxs as [|x xs Hx _ IH]; intros rd Hrd; simpl.
  - exact Hrd.
  - apply IH. unfold store_data. apply map_Forall_insert_2; assumption.
Qed.

(** The dict of the returned arrays holds arrays of one length, the
    number of active grid points. *)
Lemma read_fields_length (self : t) (ds : H5File)
    (rd : gmap string (list Z)) (rm : gmap string (gmap string Z)) :
  (read_fields self ds).1 = Ok (rd, rm) ->
  map_Forall (fun _ d => length d = length (activegpis (grid self))) rd.
Proof.
  unfold read_fields. destruct (ds !! sm_field self) as [group|]; [|discriminate].
  destruct (for_each (read_parameter self group) (parameters self)) as [xs|e] eqn:E.
  - rewrite (read_parameters_ok _ _ _ _ _ _ E). simpl. intros [= <- _].
    apply (foldl_store_data_Forall
             (fun d => length d = length (activegpis (grid self)))).
    + eapply for_each_Forall; [|exact E].
      intros p x Hx. eapply read_parameter_length. exact Hx.
    + apply map_Forall_empty.
  - rewrite (read_parameters_raise _ _ _ _ _ _ E). discriminate.
Qed.

(** ** SPL3SMP_Img.read: its stages, and the role of [flatten] *)

Lemma set_flatten_id (self : t) : set_flatten (flatten self) self = self.
Proof. destruct self; reflexivity. Qed.

Lemma resolve_overpass_set_flatten (b : bool) (self : t) (ds : H5File) :
  resolve_overpass (set_flatten b self) ds = set_flatten b <$> resolve_overpass self ds.
Proof.
  unfold resolve_overpass; simpl.
  destruct (overpass self) as [o|].
  - destruct (String.eqb o "AM" || String.eqb o "PM"); reflexivity.
  - destruct (1 <? _)%nat; [reflexivity|].
    destruct (find_overpasses _ _); reflexivity.
Qed.

Lemma resolve_overpass_grid (self self' : t) (ds : H5File) :
  resolve_overpass self ds = Ok self' ->
  grid self' = grid self /\ parameters self' = parameters self /\
  var_overpass_str self' = var_overpass_str self /\ flatten self' = flatten self.
Proof.
  intros H. destruct (resolve_overpass_ok _ _ _ H) as [[_ ->]|(_ & o & _ & ->)];
    repeat split.
Qed.

Lemma read_parameters_set_flatten (b : bool) (self : t) (group : Group)
    (ps : list string) (rd : gmap string (list Z)) (rm : gmap string (gmap string Z)) :
  read_parameters (set_flatten b self) group ps rd rm
  = read_parameters self group ps rd rm.
Proof.
  revert rd rm; induction ps as [|p ps IH]; intros rd rm; simpl; [reflexivity|].
  change (read_parameter (set_flatten b self) group p)
    with (read_parameter self group p).
  destruct (read_parameter self group p) as [x|e]; [|reflexivity].
  rewrite IH. reflexivity.
Qed.

Lemma read_fields_set_flatten (b : bool) (self : t) (ds : H5File) :
  read_fields (set_flatten b self) ds = read_fields self ds.
Proof.
  unfold read_fields.
  change (sm_field (set_flatten b self)) with (sm_field self).
  destruct (ds !! sm_field self) as [group|]; [|reflexivity].
  apply read_parameters_set_flatten.
Qed.

(** When the three stages before the shaping succeed, [read] returns
    what the shaping returns. *)
Lemma read_returned (fs : gmap string H5File) (self self' : t)
    (ts : option Datetime.datetime) (ds : H5File)
    (rd : gmap string (list Z)) (rm : gmap string (gmap string Z)) :
  fs !! filename self = Some ds ->
  resolve_overpass self ds = Ok self' ->
  (read_fields self' ds).1 = Ok (rd, rm) ->
  returned (read fs self ts) = shape_image self' rd rm ts.
Proof.
  intros Hfs Hres Hf. unfold read, h5py_File. rewrite Hfs, Hres.
  destruct (read_fields self' ds) as [r ws]. simpl in Hf. subst r. reflexivity.
Qed.

Lemma read_ok_inv (fs : gmap string H5File) (self : t)
    (ts : option Datetime.datetime) (img : Image) :
  returned (read fs self ts) = Ok img ->
  exists (ds : H5File) (self' : t) (rd : gmap string (list Z))
         (rm : gmap string (gmap string Z)),
    fs !! filename self = Some ds /\
    resolve_overpass self ds = Ok self' /\
    (read_fields self' ds).1 = Ok (rd, rm) /\
    shape_image self' rd rm ts = Ok img.
Proof.
  unfold read, h5py_File.
  destruct (fs !! filename self) as [ds|]; [|discriminate].
  destruct (resolve_overpass self ds) as [self'|e] eqn:Hres; [|discriminate].
  destruct (read_fields self' ds) as [[[rd rm]|e] ws] eqn:E; [|discriminate].
  simpl. intros H. exists ds, self', rd, rm.
  split; [reflexivity|]. split; [exact Hres|]. rewrite E. split; [reflexivity|exact H].
Qed.

(** If the flatten-mode twin of a reader returns an Image, then with
    either setting of [flatten] the same reader state and the same two
    dicts reach the shaping step. *)
Lemma read_flatten_stages (fs : gmap string H5File) (self : t)
    (ts : option Datetime.datetime) (img1 : Image) :
  returned (read fs (set_flatten true self) ts) = Ok img1 ->
  exists (self' : t) (rd : gmap string (list Z)) (rm : gmap string (gmap string Z)),
    grid self' = grid self /\
    map_Forall (fun _ d => length d = length (activegpis (grid self))) rd /\
    forall b : bool,
      returned (read fs (set_flatten b self) ts)
      = shape_image (set_flatten b self') rd rm ts.
Proof.
  intros H. apply read_ok_inv in H as (ds & s1 & rd & rm & Hfs & Hres & Hf & _).
  rewrite resolve_overpass_set_flatten in Hres.
  destruct (resolve_overpass self ds) as [self'|e] eqn:Hres'; [|discriminate].
  injection Hres as <-. rewrite read_fields_set_flatten in Hf.
  destruct (resolve_overpass_grid _ _ _ Hres') as (Hg & _).
  exists self', rd, rm. split; [exact Hg|].
  split; [rewrite <- Hg; apply (read_fields_length _ _ _ _ Hf)|].
  intros b. apply (read_returned _ _ _ _ ds).
  - exact Hfs.
  - rewrite resolve_overpass_set_flatten, Hres'. reflexivity.
  - rewrite read_fields_set_flatten. exact Hf.
Qed.

(** ** SPL3SMP_Img.read: the shaping *)

Lemma shape_image_flatten (self : t) (rd : gmap string (list Z))
    (rm : gmap string (gmap string Z)) (ts : option Datetime.datetime) :
  flatten self = true ->
  shape_image self rd rm ts =
    Ok {| lon := Arr1 (activearrlon (grid self));
          lat := Arr1 (activearrlat (grid self));
          data := Arr1 <$> rd; metadata := rm; timestamp := ts |}.
Proof. intros H. unfold shape_image. rewrite H. reflexivity. Qed.

Lemma shape_image_raster (self : t) (rd : gmap string (list Z))
    (rm : gmap string (gmap string Z)) (ts : option Datetime.datetime) (r c : nat) :
  flatten self = false ->
  subset_shape (grid self) = [r; c] ->
  length (activearrlon (grid self)) = (r * c)%nat ->
  length (activearrlat (grid self)) = (r * c)%nat ->
  map_Forall (fun _ d => length d = (r * c)%nat) rd ->
  shape_image self rd rm ts =
    Ok {| lon := Arr2 (Np.flipud (Np.chunks r c (activearrlon (grid self))));
          lat := Arr2 (Np.flipud (Np.chunks r c (activearrlat (grid self))));
          data := (fun d => Arr2 (Np.flipud (Np.chunks r c d))) <$> rd;
          metadata := rm; timestamp := ts |}.
Proof.
  intros Hfl Hshape Hlon Hlat Hrd. unfold shape_image.
  rewrite Hfl, Hshape. unfold Np.prod; simpl. rewrite Nat.mul_1_r.
  rewrite Hlon, Hlat, Nat.eqb_refl. simpl.
  unfold Np.reshape2. rewrite Hlon, Hlat, Nat.eqb_refl. simpl.
  unfold reshape_all. destruct (decide _) as [_|Hn]; [reflexivity|].
  contradiction.
Qed.

Lemma shape_image_not_2d (self : t) (rd : gmap string (list Z))
    (rm : gmap string (gmap string Z)) (ts : option Datetime.datetime) :
  flatten self = false ->
  length (subset_shape (grid self)) <> 2%nat ->
  shape_image self rd rm ts = Raise ValueError_grid_1d.
Proof.
  intros Hfl Hlen. unfold shape_image. rewrite Hfl.
  destruct (subset_shape (grid self)) as [|r [|c [|d rest]]]; try reflexivity.
  contradiction Hlen. reflexivity.
Qed.

Lemma shape_image_mismatch (self : t) (rd : gmap string (list Z))
    (rm : gmap string (gmap string Z)) (ts : option Datetime.datetime) :
  flatten self = false ->
  length (subset_shape (grid self)) = 2%nat ->
  Np.prod (subset_shape (grid self)) <> length (activearrlon (grid self)) \/
  Np.prod (subset_shape (grid self)) <> length (activearrlat (grid self)) ->
  shape_image self rd rm ts = Raise (ValueError_shape_mismatch (subset_shape (grid self))).
Proof.
  intros Hfl Hlen Hbad. unfold shape_image. rewrite Hfl.
  destruct (subset_shape (grid self)) as [|r [|c [|d rest]]] eqn:Hshape;
    try discriminate.
  replace (negb (Np.prod [r; c] =? length (activearrlon (grid self)))%nat
           || negb (Np.prod [r; c] =? length (activearrlat (grid self)))%nat)
    with true; [reflexivity|].
  symmetry. apply orb_true_iff.
  destruct Hbad as [H|H]; [left|right]; apply negb_true_iff, Nat.eqb_neq; exact H.
Qed.

(** In raster mode no Image is returned for a grid whose shape is not
    2-D or does not have as many cells as there are coordinates. *)
Lemma read_raster_bad_grid (fs : gmap string H5File) (self : t)
    (ts : option Datetime.datetime) :
  flatten self = false ->
  length (subset_shape (grid self)) <> 2%nat \/
  Np.prod (subset_shape (grid self)) <> length (activearrlon (grid self)) \/
  Np.prod (subset_shape (grid self)) <> length (activearrlat (grid self)) ->
  exists e : exn, returned (read fs self ts) = Raise e.
Proof.
  intros Hfl Hbad. unfold read, h5py_File.
  destruct (fs !! filename self) as [ds|]; [|eexists; reflexivity].
  destruct (resolve_overpass self ds) as [self'|e] eqn:Hres; [|eexists; reflexivity].
  destruct (read_fields self' ds) as [[[rd rm]|e] ws]; [|eexists; reflexivity].
  simpl. destruct (resolve_overpass_grid _ _ _ Hres) as (Hg & _ & _ & Hfl').
  rewrite Hfl in Hfl'.
  destruct (Nat.eq_dec (length (subset_shape (grid self'))) 2) as [Htwo|Hne].
  - eexists. apply shape_image_mismatch; [exact Hfl'|exact Htwo|].
    rewrite Hg. destruct Hbad as [H|H]; [|exact H].
    rewrite Hg in Htwo. contradiction.
  - eexists. apply shape_image_not_2d; assumption.
Qed.

Lemma shape_image_raster_inv (self : t) (rd : gmap string (list Z))
    (rm : gmap string (gmap string Z)) (ts : option Datetime.datetime) (img : Image) :
  flatten self = false ->
  shape_image self rd rm ts = Ok img ->
  exists r c : nat,
    subset_shape (grid self) = [r; c] /\
    length (activearrlon (grid self)) = (r * c)%nat /\
    length (activearrlat (grid self)) = (r * c)%nat /\
    map_Forall (fun _ d => length d = (r * c)%nat) rd.
Proof.
  intros Hfl. unfold shape_image. rewrite Hfl.
  destruct (subset_shape (grid self)) as [|r [|c [|d rest]]]; try discriminate.
  unfold Np.prod; simpl. rewrite Nat.mul_1_r.
  destruct (r * c =? length (activearrlon (grid self)))%nat eqn:Hlon;
    [|discriminate].
  destruct (r * c =? length (activearrlat (grid self)))%nat eqn:Hlat;
    [|discriminate].
  apply Nat.eqb_eq in Hlon, Hlat. simpl.
  unfold Np.reshape2. rewrite <- Hlon, <- Hlat, Nat.eqb_refl. simpl.
  unfold reshape_all. destruct (decide _) as [Hrd|_]; [|discriminate].
  intros _. exists r, c. repeat split; try reflexivity; try (symmetry; assumption).
  exact Hrd.
Qed.

Lemma has_shape_flipud_chunks (r c : nat) (a : list Z) :
  length a = (r * c)%nat -> has_shape r c (Arr2 (Np.flipud (Np.chunks r c a))).
Proof.
  intros Ha. unfold has_shape, Np.flipud. split.
  - rewrite length_rev. apply length_chunks.
  - apply Forall_rev. apply Forall_length_chunks. exact Ha.
Qed.

Lemma raster_of_flipud_chunks (r c : nat) (a : list Z) :
  length a = (r * c)%nat ->
  raster_of r c (Arr1 a) (Arr2 (Np.flipud (Np.chunks r c a))).
Proof.
  intros Ha. unfold raster_of. split; [apply has_shape_flipud_chunks; exact Ha|].
  split; [exact Ha|]. symmetry. apply flatten_flipud_reshape. exact Ha.
Qed.

(** ** SPL3SMP_Img.read: two parameters under one name *)

(** C9: when the two requested parameters are both loaded and are to be
    returned under one name, the second store replaces the first: the
    data and the metadata of every Image returned have the one entry of
    that name, made from the second parameter; in flatten mode [read]
    does return, and no exception is raised on account of the name. *)
Theorem read_name_collision (fs : gmap string H5File) (self self' : t)
    (ts : option Datetime.datetime) (ds : H5File) (group : Group)
    (p1 p2 : string) (x1 x2 : loaded) :
  fs !! filename self = Some ds ->
  resolve_overpass self ds = Ok self' ->
  ds !! sm_field self' = Some group ->
  parameters self = [p1; p2] ->
  read_parameter self' group p1 = Ok x1 ->
  read_parameter self' group p2 = Ok x2 ->
  ret_name x1 = ret_name x2 ->
  (flatten self = true ->
   returned (read fs self ts) =
     Ok {| lon := Arr1 (activearrlon (grid self));
           lat := Arr1 (activearrlat (grid self));
           data := {[ ret_name x2 := Arr1 (ret_data x2) ]};
           metadata := {[ ret_name x2 := ret_meta x2 ]};
           timestamp := ts |}) /\
  (forall img : Image,
     returned (read fs self ts) = Ok img ->
     metadata img = {[ ret_name x2 := ret_meta x2 ]} /\
     exists a : ndarray,
       data img = {[ ret_name x2 := a ]} /\
       match a with
       | Arr1 d => flatten self = true /\ d = ret_data x2
       | Arr2 rows => flatten self = false /\
                      Np.flatten (Np.flipud rows) = ret_data x2
       end).
Proof.
  intros Hfs Hres Hgroup Hps H1 H2 Hname.
  destruct (resolve_overpass_grid _ _ _ Hres) as (Hg & Hps' & _ & Hfl).
  assert (Hfields : (read_fields self' ds).1 =
            Ok ({[ ret_name x2 := ret_data x2 ]}, {[ ret_name x2 := ret_meta x2 ]})).
  { unfold read_fields. rewrite Hgroup, Hps', Hps. simpl. rewrite H1, H2. simpl.
    unfold store_data, store_meta. rewrite Hname, !insert_insert_eq, !insert_empty.
    reflexivity. }
  rewrite (read_returned _ _ _ _ _ _ _ Hfs Hres Hfields).
  split.
  - intros Htrue. rewrite shape_image_flatten by (rewrite Hfl; exact Htrue).
    rewrite Hg, map_fmap_singleton. reflexivity.
  - intros img Himg. destruct (flatten self) eqn:Hflat.
    + rewrite shape_image_flatten in Himg by exact Hfl.
      injection Himg as <-. simpl. split; [reflexivity|].
      exists (Arr1 (ret_data x2)). rewrite map_fmap_singleton.
      repeat split.
    + destruct (shape_image_raster_inv _ _ _ _ _ Hfl Himg)
        as (r & c & Hshape & Hlon & Hlat & Hrd).
      rewrite (shape_image_raster _ _ _ _ r c Hfl Hshape Hlon Hlat Hrd) in Himg.
      injection Himg as <-. simpl. split; [reflexivity|].
      eexists. rewrite map_fmap_singleton. split; [reflexivity|].
      split; [reflexivity|]. apply flatten_flipud_reshape.
      apply (Hrd (ret_name x2)). apply lookup_singleton_eq.
Qed.

Lemma read_name_collision_witness :
  exists img : Image,
    returned (read Sample.fs
                (Sample.reader "both.h5"
                   (ParamList ["soil_moisture"; "soil_moisture_pm"]) (Some "PM")
                   Sample.grid16 true)
                None) = Ok img /\
    data img = {[ "soil_moisture_pm" :=
                    Arr1 (Np.flatten (Np.flipud Sample.rows4_other)) ]} /\
    metadata img = {[ "soil_moisture_pm" := Sample.partial_attrs ]}.
Proof.
  destruct (read_name_collision Sample.fs
              (Sample.reader "both.h5"
                 (ParamList ["soil_moisture"; "soil_moisture_pm"]) (Some "PM")
                 Sample.grid16 true)
              (Sample.reader "both.h5"
                 (ParamList ["soil_moisture"; "soil_moisture_pm"]) (Some "PM")
                 Sample.grid16 true)
              None Sample.ds_both
              {[ "soil_moisture_pm" := mk_Dataset Sample.rows4 ∅;
                 "soil_moisture_pm_pm" := mk_Dataset Sample.rows4_other Sample.partial_attrs ]}
              "soil_moisture" "soil_moisture_pm"
              {| ret_name := "soil_moisture_pm";
                 ret_data := Np.flatten (Np.flipud Sample.rows4);
                 ret_meta := ∅; ret_warn := [] |}
              {| ret_name := "soil_moisture_pm";
                 ret_data := Np.flatten (Np.flipud Sample.rows4_other);
                 ret_meta := Sample.partial_attrs; ret_warn := [] |})
    as [Hflat _]; try (vm_compute; reflexivity).
  eexists. split; [apply Hflat; reflexivity|]. split; reflexivity.
Defined.

(** ** SPL3SMP_Img.read: raster mode and flatten mode *)

(** For a grid with a 2-D shape and as many coordinates and indices as
    the shape has cells: if the flatten-mode twin of a reader returns an
    Image, so does the raster-mode twin, with the same names and
    metadata, and each flat array is the raster of the same name read row
    by row once the flip of the raster is undone. *)
Lemma read_raster_of_flatten (fs : gmap string H5File) (self : t)
    (ts : option Datetime.datetime) (r c : nat) (img1 : Image) :
  subset_shape (grid self) = [r; c] ->
  length (activearrlon (grid self)) = (r * c)%nat ->
  length (activearrlat (grid self)) = (r * c)%nat ->
  length (activegpis (grid self)) = (r * c)%nat ->
  returned (read fs (set_flatten true self) ts) = Ok img1 ->
  exists img2 : Image,
    returned (read fs (set_flatten false self) ts) = Ok img2 /\
    raster_of r c (lon img1) (lon img2) /\
    raster_of r c (lat img1) (lat img2) /\
    dom (data img2) = dom (data img1) /\
    (forall (name : string) (a1 : ndarray),
       data img1 !! name = Some a1 ->
       exists a2 : ndarray, data img2 !! name = Some a2 /\ raster_of r c a1 a2) /\
    metadata img2 = metadata img1 /\
    timestamp img2 = timestamp img1.
Proof.
  intros Hshape Hlon Hlat Hgpis Himg1.
  destruct (read_flatten_stages _ _ _ _ Himg1) as (s' & rd & rm & Hg & Hrd & Hb).
  rewrite (Hb true), shape_image_flatten in Himg1 by reflexivity.
  injection Himg1 as <-. simpl. rewrite Hg.
  rewrite Hgpis in Hrd.
  eexists. split.
  { rewrite (Hb false). apply (shape_image_raster _ _ _ _ r c); simpl;
      rewrite ?Hg; try assumption; reflexivity. }
  simpl. rewrite Hg.
  split; [apply raster_of_flipud_chunks; exact Hlon|].
  split; [apply raster_of_flipud_chunks; exact Hlat|].
  split; [rewrite !dom_fmap_L; reflexivity|].
  split; [|split; reflexivity].
  intros name a1. rewrite !lookup_fmap.
  destruct (rd !! name) as [d|] eqn:Hd; simpl; [|discriminate].
  intros [= <-]. eexists. split; [reflexivity|].
  apply raster_of_flipud_chunks. apply (Hrd name d Hd).
Qed.

(** For the grid of all cells in file order, and a field that is not
    masked: raster mode returns the array of the file, flatten mode the
    rows of the file from the last to the first, one after the other. *)
Lemma read_identity_grid (fs : gmap string H5File) (self self' : t)
    (ts : option Datetime.datetime) (ds : H5File) (group : Group)
    (p : string) (param : Dataset) (r c : nat) :
  fs !! filename self = Some ds ->
  resolve_overpass self ds = Ok self' ->
  ds !! sm_field self' = Some group ->
  parameters self = [p] ->
  group !! (p ++ field_suffix (overpass self')) = Some param ->
  attrs param !! "_FillValue" = None \/ attrs param !! "valid_min" = None \/
    attrs param !! "valid_max" = None ->
  length (values param) = r ->
  Forall (fun row => length row = c) (values param) ->
  activegpis (grid self) = py_range (Z.of_nat (r * c)) ->
  subset_shape (grid self) = [r; c] ->
  length (activearrlon (grid self)) = (r * c)%nat ->
  length (activearrlat (grid self)) = (r * c)%nat ->
  data <$> returned (read fs (set_flatten false self) ts) =
    Ok {[ (ret_param_name (var_overpass_str self) (overpass self') p).1
            := Arr2 (values param) ]} /\
  data <$> returned (read fs (set_flatten true self) ts) =
    Ok {[ (ret_param_name (var_overpass_str self) (overpass self') p).1
            := Arr1 (Np.flatten (Np.flipud (values param))) ]}.
Proof.
  intros Hfs Hres Hgroup Hps Hparam Hattrs Hr Hc Hgpis Hshape Hlon Hlat.
  destruct (resolve_overpass_grid _ _ _ Hres) as (Hg & Hps' & Hv & _).
  assert (Hflat : length (Np.flatten (Np.flipud (values param))) = (r * c)%nat).
  { unfold Np.flatten, Np.flipud.
    rewrite (length_concat_rows c) by (apply Forall_rev; exact Hc).
    rewrite length_rev, Hr. reflexivity. }
  set (name := (ret_param_name (var_overpass_str self) (overpass self') p).1).
  assert (Hfields : (read_fields self' ds).1 =
            Ok ({[ name := Np.flatten (Np.flipud (values param)) ]},
                {[ name := copy_attrs (attrs param) ]})).
  { unfold read_fields. rewrite Hgroup, Hps', Hps. simpl.
    unfold read_parameter, h5_getitem. rewrite Hparam. simpl.
    rewrite Hg, Hgpis, <- Hflat, fancy_index_identity. simpl.
    rewrite (mask_skipped _ _ Hattrs). rewrite Hv. subst name.
    destruct (ret_param_name _ _ _) as [n w]. simpl.
    unfold store_data, store_meta; simpl. rewrite !insert_empty. reflexivity. }
  assert (Hstage : forall b, returned (read fs (set_flatten b self) ts) =
            shape_image (set_flatten b self')
              {[ name := Np.flatten (Np.flipud (values param)) ]}
              {[ name := copy_attrs (attrs param) ]} ts).
  { intros b. apply (read_returned _ _ _ _ ds).
    - exact Hfs.
    - rewrite resolve_overpass_set_flatten, Hres. reflexivity.
    - rewrite read_fields_set_flatten. exact Hfields. }
  split.
  - rewrite (Hstage false).
    rewrite (shape_image_raster _ _ _ _ r c); simpl; rewrite ?Hg; try assumption;
      try reflexivity.
    + rewrite map_fmap_singleton. do 3 f_equal.
      unfold Np.flatten, Np.flipud.
      rewrite <- Hr, <- (length_rev (values param)).
      rewrite chunks_concat by (apply Forall_rev; exact Hc).
      apply rev_involutive.
    + apply map_Forall_singleton. exact Hflat.
  - rewrite (Hstage true), shape_image_flatten by reflexivity. simpl.
    rewrite map_fmap_singleton. reflexivity.
Qed.

(** C1 as stated fails: for the 4 x 4 field with the rows [0..3],
    [4..7], [8..11], [12..15] and the grid of all 16 cells in file order,
    raster mode returns the rows in the order of the file, which is not
    their reversed order. *)
Lemma read_raster_rows_counterexample :
  data <$> returned (read Sample.fs
             (Sample.reader "am.h5" (ParamStr "soil_moisture") (Some "AM")
                Sample.grid16 false)
             None)
    = Ok {[ "soil_moisture_am" := Arr2 Sample.rows4 ]} /\
  Arr2 Sample.rows4 <> Arr2 (Np.flipud Sample.rows4).
Proof. split; [vm_compute; reflexivity|discriminate]. Qed.

(** C1, as amended: for an unmasked field of [r] rows and [c] columns and
    the grid of all [r * c] cells in file order (4 x 4 among them),
    raster mode returns the array of the file itself, the two reversals
    of the rows cancelling, and flatten mode returns the row-major
    flattening of the row-reversed array. For every grid with a 2-D shape
    [(r, c)] and [r * c] active points on which flatten mode returns,
    raster mode returns too: coordinates and data have the shape
    [(r, c)], the flat arrays have [r * c] elements, and each flat array
    is the raster of the same name read in row-major order after its rows
    are put back in reversed order. *)
Theorem read_raster_flatten_roundtrip :
  (forall (fs : gmap string H5File) (self self' : t) (ts : option Datetime.datetime)
          (ds : H5File) (group : Group) (p : string) (param : Dataset) (r c : nat),
     fs !! filename self = Some ds ->
     resolve_overpass self ds = Ok self' ->
     ds !! sm_field self' = Some group ->
     parameters self = [p] ->
     group !! (p ++ field_suffix (overpass self')) = Some param ->
     attrs param !! "_FillValue" = None \/ attrs param !! "valid_min" = None \/
       attrs param !! "valid_max" = None ->
     length (values param) = r ->
     Forall (fun row => length row = c) (values param) ->
     activegpis (grid self) = py_range (Z.of_nat (r * c)) ->
     subset_shape (grid self) = [r; c] ->
     length (activearrlon (grid self)) = (r * c)%nat ->
     length (activearrlat (grid self)) = (r * c)%nat ->
     data <$> returned (read fs (set_flatten false self) ts) =
       Ok {[ (ret_param_name (var_overpass_str self) (overpass self') p).1
               := Arr2 (values param) ]} /\
     data <$> returned (read fs (set_flatten true self) ts) =
       Ok {[ (ret_param_name (var_overpass_str self) (overpass self') p).1
               := Arr1 (Np.flatten (Np.flipud (values param))) ]}) /\
  (forall (fs : gmap string H5File) (self : t) (ts : option Datetime.datetime)
          (r c : nat) (img1 : Image),
     subset_shape (grid self) = [r; c] ->
     length (activearrlon (grid self)) = (r * c)%nat ->
     length (activearrlat (grid self)) = (r * c)%nat ->
     length (activegpis (grid self)) = (r * c)%nat ->
     returned (read fs (set_flatten true self) ts) = Ok img1 ->
     exists img2 : Image,
       returned (read fs (set_flatten false self) ts) = Ok img2 /\
       raster_of r c (lon img1) (lon img2) /\
       raster_of r c (lat img1) (lat img2) /\
       dom (data img2) = dom (data img1) /\
       (forall (name : string) (a1 : ndarray),
          data img1 !! name = Some a1 ->
          exists a2 : ndarray,
            data img2 !! name = Some a2 /\ raster_of r c a1 a2)).
Proof.
  split.
  - apply read_identity_grid.
  - intros fs self ts r c img1 Hshape Hlon Hlat Hgpis Himg1.
    destruct (read_raster_of_flatten fs self ts r c img1 Hshape Hlon Hlat Hgpis Himg1)
      as (img2 & H2 & Hl & Hla & Hdom & Hdata & _).
    exists img2. repeat split; assumption.
Qed.

Lemma read_raster_flatten_roundtrip_witness :
  data <$> returned (read Sample.fs
             (Sample.reader "am.h5" (ParamStr "soil_moisture") (Some "AM")
                Sample.grid16 false) None)
    = Ok {[ "soil_moisture_am" := Arr2 Sample.rows4 ]} /\
  data <$> returned (read Sample.fs
             (Sample.reader "am.h5" (ParamStr "soil_moisture") (Some "AM")
                Sample.grid16 true) None)
    = Ok {[ "soil_moisture_am" :=
              Arr1 [12; 13; 14; 15; 8; 9; 10; 11; 4; 5; 6; 7; 0; 1; 2; 3]%Z ]}.
Proof.
  destruct read_raster_flatten_roundtrip as [Hid _].
  apply (Hid Sample.fs
           (Sample.reader "am.h5" (ParamStr "soil_moisture") (Some "AM")
              Sample.grid16 false)
           (Sample.reader "am.h5" (ParamStr "soil_moisture") (Some "AM")
              Sample.grid16 false)
           None Sample.ds_am
           {[ "soil_moisture" := mk_Dataset Sample.rows4 ∅;
              "surface_flag" := mk_Dataset Sample.rows4 Sample.range_attrs ]}
           "soil_moisture" (mk_Dataset Sample.rows4 ∅) 4%nat 4%nat);
    try (vm_compute; reflexivity).
  - left. reflexivity.
  - repeat constructor.
Defined.

(** C5 as stated fails: for a grid whose shape is not 2-D the exception
    raised asks for a 2-D grid and does not recommend flatten mode. *)
Lemma read_raster_1d_counterexample :
  returned (read Sample.fs
              (Sample.reader "am.h5" (ParamStr "soil_moisture") (Some "AM")
                 Sample.grid_land false)
              None) = Raise ValueError_grid_1d /\
  recommends_flatten ValueError_grid_1d = false.
Proof. split; vm_compute; reflexivity. Qed.

(** C5, as amended: in raster mode [read] raises, and returns no Image,
    whenever the shape of the grid is not 2-D or its product differs from
    the length of a coordinate array. When the fields themselves can be
    read (the flatten-mode twin returns): for a shape that is not 2-D the
    exception is the one that asks for a 2-D grid; for a 2-D shape whose
    product differs it is the one that carries the shape and recommends
    [flatten=True]; for a 2-D shape [(r, c)] with [r * c] coordinates and
    indices an Image is returned whose coordinates and data all have the
    shape [(r, c)]. *)
Theorem read_raster_shape_check (fs : gmap string H5File) (self : t)
    (ts : option Datetime.datetime) :
  flatten self = false ->
  (length (subset_shape (grid self)) <> 2%nat \/
   Np.prod (subset_shape (grid self)) <> length (activearrlon (grid self)) \/
   Np.prod (subset_shape (grid self)) <> length (activearrlat (grid self)) ->
   exists e : exn, returned (read fs self ts) = Raise e) /\
  (forall img1 : Image,
     returned (read fs (set_flatten true self) ts) = Ok img1 ->
     (length (subset_shape (grid self)) <> 2%nat ->
      returned (read fs self ts) = Raise ValueError_grid_1d) /\
     (length (subset_shape (grid self)) = 2%nat ->
      Np.prod (subset_shape (grid self)) <> length (activearrlon (grid self)) \/
      Np.prod (subset_shape (grid self)) <> length (activearrlat (grid self)) ->
      returned (read fs self ts) =
        Raise (ValueError_shape_mismatch (subset_shape (grid self))) /\
      recommends_flatten (ValueError_shape_mismatch (subset_shape (grid self)))
        = true) /\
     (forall r c : nat,
        subset_shape (grid self) = [r; c] ->
        length (activearrlon (grid self)) = (r * c)%nat ->
        length (activearrlat (grid self)) = (r * c)%nat ->
        length (activegpis (grid self)) = (r * c)%nat ->
        exists img : Image,
          returned (read fs self ts) = Ok img /\
          has_shape r c (lon img) /\ has_shape r c (lat img) /\
          map_Forall (fun _ a => has_shape r c a) (data img) /\
          dom (data img) = dom (data img1))).
Proof.
  intros Hfl. split; [apply read_raster_bad_grid; exact Hfl|].
  intros img1 Himg1.
  destruct (read_flatten_stages _ _ _ _ Himg1) as (s' & rd & rm & Hg & Hrd & Hb).
  pose proof (Hb false) as Hraster.
  rewrite <- Hfl in Hraster at 1. rewrite set_flatten_id in Hraster.
  split; [|split].
  - intros Hlen. rewrite Hraster. apply shape_image_not_2d; [reflexivity|].
    simpl. rewrite Hg. exact Hlen.
  - intros Hlen Hbad. split; [|reflexivity].
    rewrite Hraster, <- Hg.
    apply (shape_image_mismatch (set_flatten false s')); simpl; rewrite ?Hg; auto.
  - intros r c Hshape Hlon Hlat Hgpis.
    rewrite (Hb true), shape_image_flatten in Himg1 by reflexivity.
    injection Himg1 as <-. simpl.
    rewrite Hgpis in Hrd.
    eexists. split.
    { rewrite Hraster. apply (shape_image_raster _ _ _ _ r c); simpl;
        rewrite ?Hg; try assumption; reflexivity. }
    simpl. rewrite Hg.
    split; [apply has_shape_flipud_chunks; exact Hlon|].
    split; [apply has_shape_flipud_chunks; exact Hlat|].
    split; [|rewrite !dom_fmap_L; reflexivity].
    apply map_Forall_fmap. intros name d Hd. simpl.
    apply has_shape_flipud_chunks. apply (Hrd name d Hd).
Qed.

Lemma read_raster_shape_check_witness :
  returned (read Sample.fs
              (Sample.reader "am.h5" (ParamStr "soil_moisture") (Some "AM")
                 Sample.grid_gaps false)
              None)
    = Raise (ValueError_shape_mismatch [2; 2]%nat) /\
  recommends_flatten (ValueError_shape_mismatch [2; 2]%nat) = true.
Proof.
  destruct (read_raster_shape_check Sample.fs
              (Sample.reader "am.h5" (ParamStr "soil_moisture") (Some "AM")
                 Sample.grid_gaps false)
              None eq_refl) as [_ H].
  destruct (H {| lon := Arr1 [0; 1; 0]%Z; lat := Arr1 [0; 0; 1]%Z;
                 data := {[ "soil_moisture_am" := Arr1 [12; 13; 8]%Z ]};
                 metadata := {[ "soil_moisture_am" := ∅ ]};
                 timestamp := None |}) as (_ & Hmis & _).
  - vm_compute; reflexivity.
  - apply Hmis.
    + reflexivity.
    + left. vm_compute. lia.
Defined.

End Reader.

(** * Further properties *)

(** ** SPL3SMP_Ds.tstamps_for_daterange, for any order of the two dates *)

Section DaterangeAll.
Import Datetime SPL3SMP_Ds.

Lemma days_sub_cases (s e : datetime) :
  valid s -> valid e ->
  days (sub e s) =
    (ordinal e - ordinal s + (if usec e <? usec s then -1 else 0))%Z.
Proof.
  intros [Hs1 Hs2] [He1 He2]. unfold sub; simpl. unfold USEC_PER_DAY in *.
  rewrite Z.div_add_l by lia. f_equal.
  destruct (usec e <? usec s)%Z eqn:E.
  - apply Z.ltb_lt in E. symmetry.
    apply (Z.div_unique_pos _ _ _ (usec e - usec s + 86400000000)); lia.
  - apply Z.ltb_ge in E. apply Z.div_small. lia.
Qed.

Lemma py_range_nonpos (n : Z) : (n <= 0)%Z -> py_range n = [].
Proof. intros H. unfold py_range. replace (Z.to_nat n) with 0%nat by lia. reflexivity. Qed.

Lemma py_range_app (a b : Z) :
  (0 <= a)%Z -> (0 <= b)%Z ->
  py_range (a + b) = (py_range a ++ ((fun i => a + i)%Z <$> py_range b))%list.
Proof.
  intros Ha Hb. unfold py_range.
  rewrite Z2Nat.inj_add, seq_app, fmap_app by lia. f_equal.
  rewrite <- list_fmap_compose. simpl.
  replace (Z.to_nat a) with (Z.to_nat a + 0)%nat at 1 by lia.
  rewrite <- (fmap_add_seq (Z.to_nat a) 0), <- list_fmap_compose.
  apply list_fmap_ext. intros _ k _. simpl. lia.
Qed.

(** The list returned, in closed form, whatever the order of the dates. *)
Lemma tstamps_for_daterange_closed (s e : datetime) :
  valid s -> valid e ->
  tstamps_for_daterange s e =
    Ok ((fun i => mk_datetime (ordinal s + i) (usec s))
          <$> py_range (days (sub e s) + 1)).
Proof.
  intros Hs He. unfold tstamps_for_daterange.
  apply for_each_total. apply Forall_forall. intros i Hi.
  apply elem_of_py_range in Hi.
  rewrite (days_sub_cases s e Hs He) in Hi.
  destruct Hs as [Hs1 Hs2], He as [He1 He2].
  unfold add_days.
  replace ((0 <? ordinal s + i)%Z) with true by (symmetry; apply Z.ltb_lt; lia).
  replace ((ordinal s + i <=? MAXORDINAL)%Z) with true
    by (symmetry; apply Z.leb_le; destruct (usec e <? usec s)%Z; lia).
  reflexivity.
Qed.

(** X1: for any two naive datetimes (without [tzinfo]), in either
    order, the loop never leaves the range of [datetime]: a list is
    returned, [OverflowError] is not raised, and every entry is a
    datetime between the start and the end of the range. *)
Theorem tstamps_for_daterange_never_raises (s e : datetime) :
  valid s -> valid e ->
  exists l : list datetime,
    tstamps_for_daterange s e = Ok l /\
    Forall (fun d => valid d /\ le s d /\ le d e) l.
Proof.
  intros Hs He. eexists. split; [apply tstamps_for_daterange_closed; assumption|].
  apply Forall_forall. intros d Hd.
  apply list_elem_of_fmap in Hd as (i & -> & Hi).
  apply elem_of_py_range in Hi.
  rewrite (days_sub_cases s e Hs He) in Hi.
  destruct Hs as [Hs1 Hs2], He as [He1 He2].
  unfold valid, le; simpl.
  destruct (usec e <? usec s)%Z eqn:E;
    [apply Z.ltb_lt in E|apply Z.ltb_ge in E]; lia.
Qed.

Lemma tstamps_for_daterange_never_raises_witness :
  exists l : list datetime,
    tstamps_for_daterange (mk_datetime 3652059 5) (mk_datetime 3652059 7) = Ok l.
Proof.
  destruct (tstamps_for_daterange_never_raises
              (mk_datetime 3652059 5) (mk_datetime 3652059 7)) as (l & Hl & _).
  - unfold valid, MAXORDINAL, USEC_PER_DAY; simpl; lia.
  - unfold valid, MAXORDINAL, USEC_PER_DAY; simpl; lia.
  - exists l. exact Hl.
Defined.

(** X2: the list returned holds exactly the datetimes that have the
    time of day of the start and lie between the start and the end of the
    range, both included; it is empty exactly when the end is earlier
    than the start. *)
Theorem tstamps_for_daterange_elements (s e : datetime) :
  valid s -> valid e ->
  exists l : list datetime,
    tstamps_for_daterange s e = Ok l /\
    (forall d : datetime,
       d ∈ l <-> usec d = usec s /\ (ordinal s <= ordinal d)%Z /\ le d e) /\
    (l = [] <-> lt e s).
Proof.
  intros Hs He. eexists. split; [apply tstamps_for_daterange_closed; assumption|].
  pose proof (days_sub_cases s e Hs He) as Hd.
  destruct Hs as [Hs1 Hs2], He as [He1 He2].
  split.
  - intros d. rewrite list_elem_of_fmap. split.
    + intros (i & -> & Hi). apply elem_of_py_range in Hi. rewrite Hd in Hi.
      unfold le; simpl.
      destruct (usec e <? usec s)%Z eqn:E;
        [apply Z.ltb_lt in E|apply Z.ltb_ge in E]; lia.
    + intros (Hu & Ho & Hle). exists (ordinal d - ordinal s)%Z. split.
      * destruct d as [od ud]; simpl in *. subst ud. f_equal. lia.
      * apply elem_of_py_range. rewrite Hd. unfold le in Hle.
        destruct (usec e <? usec s)%Z eqn:E;
          [apply Z.ltb_lt in E|apply Z.ltb_ge in E]; lia.
  - unfold lt. split.
    + intros Hnil. apply fmap_nil_inv in Hnil.
      assert (Hlen : length (py_range (days (sub e s) + 1)) = 0%nat)
        by (rewrite Hnil; reflexivity).
      rewrite length_py_range, Hd in Hlen.
      destruct (usec e <? usec s)%Z eqn:E;
        [apply Z.ltb_lt in E|apply Z.ltb_ge in E]; lia.
    + intros Hlt. rewrite py_range_nonpos; [reflexivity|]. rewrite Hd.
      destruct (usec e <? usec s)%Z eqn:E;
        [apply Z.ltb_lt in E|apply Z.ltb_ge in E]; lia.
Qed.

Lemma tstamps_for_daterange_elements_witness :
  exists l : list datetime,
    tstamps_for_daterange (mk_datetime 737425 10) (mk_datetime 737427 0) = Ok l /\
    mk_datetime 737426 10 ∈ l /\ ~ mk_datetime 737427 10 ∈ l.
Proof.
  destruct (tstamps_for_daterange_elements
              (mk_datetime 737425 10) (mk_datetime 737427 0)) as (l & Hl & Hin & _).
  - unfold valid, MAXORDINAL, USEC_PER_DAY; simpl; lia.
  - unfold valid, MAXORDINAL, USEC_PER_DAY; simpl; lia.
  - exists l. split; [exact Hl|]. split.
    + apply Hin. unfold le; simpl. lia.
    + intros H. apply Hin in H. unfold le in H; simpl in H. lia.
Defined.

(** X3: a range can be read in two parts: for a day [m] of the list
    (between start and end, with the time of day of the start), the list
    for the whole range is the list up to [m] followed by the list from
    the day after [m]. *)
Theorem tstamps_for_daterange_split (s m m' e : datetime) :
  valid s -> valid e -> valid m ->
  le s m -> le m e -> usec m = usec s ->
  add_days m 1 = Ok m' ->
  exists l1 l2 : list datetime,
    tstamps_for_daterange s m = Ok l1 /\
    tstamps_for_daterange m' e = Ok l2 /\
    tstamps_for_daterange s e = Ok (l1 ++ l2)%list.
Proof.
  intros Hs He Hm Hsm Hme Hu Hadd.
  assert (Hm' : valid m' /\ ordinal m' = (ordinal m + 1)%Z /\ usec m' = usec m).
  { unfold add_days in Hadd.
    destruct ((0 <? ordinal m + 1)%Z && (ordinal m + 1 <=? MAXORDINAL)%Z) eqn:E;
      [|discriminate].
    injection Hadd as <-. apply andb_true_iff in E as [E1 E2].
    apply Z.ltb_lt in E1. apply Z.leb_le in E2.
    destruct Hm as [_ Hm2]. unfold valid; simpl. lia. }
  destruct Hm' as (Hvm' & Hom' & Hum').
  rewrite (tstamps_for_daterange_closed s m Hs Hm),
          (tstamps_for_daterange_closed m' e Hvm' He),
          (tstamps_for_daterange_closed s e Hs He).
  rewrite (days_sub_cases s m Hs Hm), (days_sub_cases m' e Hvm' He),
          (days_sub_cases s e Hs He).
  rewrite Hom', Hum', Hu.
  replace (usec s <? usec s)%Z with false by (symmetry; apply Z.ltb_ge; lia).
  eexists. eexists. split; [reflexivity|]. split; [reflexivity|]. f_equal.
  destruct Hs as [Hs1 Hs2], He as [He1 He2], Hm as [Hm1 Hm2].
  unfold le in Hsm, Hme.
  set (a := (ordinal m - ordinal s + 0 + 1)%Z).
  set (b := (ordinal e - (ordinal m + 1) + (if (usec e <? usec s)%Z then -1 else 0) + 1)%Z).
  assert (Ha : (0 <= a)%Z) by (subst a; lia).
  destruct (Z_le_gt_dec 0 b) as [Hb|Hb].
  - replace (ordinal e - ordinal s + (if (usec e <? usec s)%Z then -1 else 0) + 1)%Z
      with (a + b)%Z by (subst a b; lia).
    rewrite (py_range_app a b Ha Hb), fmap_app. f_equal.
    rewrite <- list_fmap_compose. apply list_fmap_ext. intros _ i _. simpl.
    f_equal. subst a. lia.
  - rewrite (py_range_nonpos b) by lia. simpl. rewrite app_nil_r.
    f_equal. f_equal. subst a b.
    destruct (usec e <? usec s)%Z eqn:E;
      [apply Z.ltb_lt in E|apply Z.ltb_ge in E]; lia.
Qed.

Lemma tstamps_for_daterange_split_witness :
  exists l1 l2 : list datetime,
    tstamps_for_daterange (mk_datetime 737425 0) (mk_datetime 737426 0) = Ok l1 /\
    tstamps_for_daterange (mk_datetime 737427 0) (mk_datetime 737429 0) = Ok l2 /\
    tstamps_for_daterange (mk_datetime 737425 0) (mk_datetime 737429 0)
      = Ok (l1 ++ l2)%list.
Proof.
  apply (tstamps_for_daterange_split
           (mk_datetime 737425 0) (mk_datetime 737426 0)
           (mk_datetime 737427 0) (mk_datetime 737429 0)).
  - unfold valid, MAXORDINAL, USEC_PER_DAY; simpl; lia.
  - unfold valid, MAXORDINAL, USEC_PER_DAY; simpl; lia.
  - unfold valid, MAXORDINAL, USEC_PER_DAY; simpl; lia.
  - unfold le; simpl; lia.
  - unfold le; simpl; lia.
  - reflexivity.
  - reflexivity.
Defined.

(** X4: moving the end of the range later only appends: the list for
    the earlier end is a prefix of the list for the later end. *)
Theorem tstamps_for_daterange_prefix (s e e' : datetime) :
  valid s -> valid e -> valid e' -> le e e' ->
  exists l l' : list datetime,
    tstamps_for_daterange s e = Ok l /\
    tstamps_for_daterange s e' = Ok l' /\
    l `prefix_of` l'.
Proof.
  intros Hs He He' Hle.
  rewrite (tstamps_for_daterange_closed s e Hs He),
          (tstamps_for_daterange_closed s e' Hs He').
  eexists. eexists. split; [reflexivity|]. split; [reflexivity|].
  rewrite (days_sub_cases s e Hs He), (days_sub_cases s e' Hs He').
  set (n := (ordinal e - ordinal s + (if (usec e <? usec s)%Z then -1 else 0) + 1)%Z).
  set (n' := (ordinal e' - ordinal s + (if (usec e' <? usec s)%Z then -1 else 0) + 1)%Z).
  destruct (Z_le_gt_dec n 0) as [Hn|Hn].
  - rewrite (py_range_nonpos n Hn). apply prefix_nil.
  - assert (Hnn : (n <= n')%Z).
    { subst n n'. destruct Hs as [_ Hs2], He as [_ He2], He' as [_ He2'].
      unfold le in Hle.
      destruct (usec e <? usec s)%Z eqn:E;
        [apply Z.ltb_lt in E|apply Z.ltb_ge in E];
        destruct (usec e' <? usec s)%Z eqn:E';
        [apply Z.ltb_lt in E'|apply Z.ltb_ge in E'|
         apply Z.ltb_lt in E'|apply Z.ltb_ge in E']; lia. }
    replace n' with (n + (n' - n))%Z by lia.
    rewrite py_range_app, fmap_app by lia. apply prefix_app_r. reflexivity.
Qed.

Lemma tstamps_for_daterange_prefix_witness :
  exists l l' : list datetime,
    tstamps_for_daterange (mk_datetime 737425 0) (mk_datetime 737426 0) = Ok l /\
    tstamps_for_daterange (mk_datetime 737425 0) (mk_datetime 737429 0) = Ok l' /\
    l `prefix_of` l'.
Proof.
  apply (tstamps_for_daterange_prefix
           (mk_datetime 737425 0) (mk_datetime 737426 0) (mk_datetime 737429 0)).
  - unfold valid, MAXORDINAL, USEC_PER_DAY; simpl; lia.
  - unfold valid, MAXORDINAL, USEC_PER_DAY; simpl; lia.
  - unfold valid, MAXORDINAL, USEC_PER_DAY; simpl; lia.
  - unfold le; simpl; lia.
Defined.

End DaterangeAll.

(** ** str and the template of the group names *)

Section StringsMore.
Import PyStr.

Lemma upper_ascii_idemp (c : ascii) : upper_ascii (upper_ascii c) = upper_ascii c.
Proof. destruct c as [[] [] [] [] [] [] [] []]; reflexivity. Qed.

Lemma upper_lower_ascii (c : ascii) : upper_ascii (lower_ascii c) = upper_ascii c.
Proof. destruct c as [[] [] [] [] [] [] [] []]; reflexivity. Qed.

Lemma upper_idemp (s : string) : upper (upper s) = upper s.
Proof.
  induction s as [|c s IH]; simpl; [reflexivity|].
  rewrite upper_ascii_idemp, IH. reflexivity.
Qed.

Lemma upper_lower (s : string) : upper (lower s) = upper s.
Proof.
  induction s as [|c s IH]; simpl; [reflexivity|].
  rewrite upper_lower_ascii, IH. reflexivity.
Qed.

Lemma str_append_nil_r (s : string) : s ++ "" = s.
Proof.
  induction s as [|c s IH]; [reflexivity|].
  change (String c s ++ "") with (String c (s ++ "")). rewrite IH. reflexivity.
Qed.

Lemma str_drop_all (s : string) : drop (String.length s) s = "".
Proof. induction s as [|c s IH]; simpl; [reflexivity|exact IH]. Qed.

Lemma str_length_drop (n : nat) (s : string) :
  String.length (drop n s) = (String.length s - n)%nat.
Proof.
  revert s; induction n as [|n IH]; intros [|c s]; simpl; try reflexivity.
  apply IH.
Qed.

Lemma str_take_all (n : nat) (s : string) :
  (String.length s <= n)%nat -> take n s = s.
Proof.
  revert s; induction n as [|n IH]; intros [|c s]; simpl; try reflexivity.
  - intros H. lia.
  - intros H. rewrite IH by lia. reflexivity.
Qed.

Lemma str_take_drop (n : nat) (s : string) : take n s ++ drop n s = s.
Proof.
  revert s; induction n as [|n IH]; intros [|c s]; try reflexivity.
  change (take (S n) (String c s) ++ drop (S n) (String c s))
    with (String c (take n s ++ drop n s)).
  rewrite IH. reflexivity.
Qed.

Lemma split_overpass_templ :
  Parse.split_templ "Soil_Moisture_Retrieval_Data{orbit}"
  = ("Soil_Moisture_Retrieval_Data", "").
Proof. vm_compute. reflexivity. Qed.

(** What [parse] does with the template of the reader: the name has to
    be longer than the 28 characters of the literal text and to start
    with them, whatever their case; the field is the rest of the name. *)
Lemma parse_overpass_templ (k : string) :
  Parse.parse "Soil_Moisture_Retrieval_Data{orbit}" k =
    if (28 <? String.length k)%nat
       && String.eqb (lower (take 28 k)) "soil_moisture_retrieval_data"
    then Some (drop 28 k) else None.
Proof.
  unfold Parse.parse. rewrite split_overpass_templ.
  change (String.length "Soil_Moisture_Retrieval_Data") with 28%nat.
  change (String.length "") with 0%nat.
  change (lower "Soil_Moisture_Retrieval_Data") with "soil_moisture_retrieval_data".
  change (lower "") with "".
  cbv zeta. rewrite Nat.add_0_r, !Nat.sub_0_r, str_drop_all.
  change (lower "") with "". change (String.eqb "" "") with true.
  rewrite andb_true_r.
  rewrite (str_take_all (String.length k - 28) (drop 28 k))
    by (rewrite str_length_drop; lia).
  reflexivity.
Qed.

Lemma format_overpass_templ (v : string) :
  Parse.format "Soil_Moisture_Retrieval_Data{orbit}" v
  = "Soil_Moisture_Retrieval_Data" ++ v.
Proof.
  unfold Parse.format. rewrite split_overpass_templ. cbv iota beta.
  rewrite str_append_nil_r. reflexivity.
Qed.

End StringsMore.

(** ** SPL3SMP_Img: the overpass option and its resolution *)

Section Overpass.
Import SPL3SMP_Img.

(** X5: the overpass given to the constructor is case-insensitive for
    ASCII strings: two spellings in ASCII that differ only in the case
    of their letters build the same reader, which stores the upper-case
    spelling, so every [read] of the two is the same. *)
Theorem init_overpass_case_insensitive (default_grid : CellGrid)
    (filename mode : string) (parameter : parameter_arg) (o o' : string)
    (var_overpass_str : bool) (grid : option CellGrid) (flatten : bool) :
  PyStr.isascii o = true -> PyStr.isascii o' = true ->
  PyStr.lower o = PyStr.lower o' ->
  init default_grid filename mode parameter (Some o) var_overpass_str grid flatten
  = init default_grid filename mode parameter (Some o') var_overpass_str grid flatten
  /\ overpass (init default_grid filename mode parameter (Some o) var_overpass_str
                 grid flatten) = Some (PyStr.upper o')
  /\ PyStr.upper (PyStr.upper o') = PyStr.upper o'.
Proof.
  intros _ _ Hlow.
  assert (Hup : PyStr.upper o = PyStr.upper o')
    by (rewrite <- (upper_lower o), <- (upper_lower o'), Hlow; reflexivity).
  unfold init; simpl. rewrite Hup. repeat split. apply upper_idemp.
Qed.

Lemma init_overpass_case_insensitive_witness :
  init Sample.grid16 "am.h5" "r" (ParamStr "soil_moisture") (Some "pm") true None false
  = init Sample.grid16 "am.h5" "r" (ParamStr "soil_moisture") (Some "Pm") true None false
  /\ overpass (init Sample.grid16 "am.h5" "r" (ParamStr "soil_moisture") (Some "pm")
                 true None false) = Some "PM".
Proof.
  destruct (init_overpass_case_insensitive Sample.grid16 "am.h5" "r"
              (ParamStr "soil_moisture") "pm" "Pm" true None false
              eq_refl eq_refl eq_refl)
    as (H1 & H2 & _).
  split; [exact H1|exact H2].
Defined.

(** X6: a reader built with an overpass that is neither AM nor PM, in
    any spelling, cannot read a file that opens: [read] raises
    [AssertionError] before anything of the file is looked at, and
    leaves the reader as it was. *)
Theorem read_rejects_unknown_overpass (default_grid : CellGrid)
    (filename mode : string) (parameter : parameter_arg) (o : string)
    (var_overpass_str : bool) (grid : option CellGrid) (flatten : bool)
    (fs : gmap string H5File) (ts : option Datetime.datetime) (ds : H5File) :
  fs !! filename = Some ds ->
  PyStr.upper o <> "AM" -> PyStr.upper o <> "PM" ->
  read fs (init default_grid filename mode parameter (Some o) var_overpass_str
             grid flatten) ts
  = {| returned := Raise AssertionError;
       self_after := init default_grid filename mode parameter (Some o)
                       var_overpass_str grid flatten;
       warnings := [] |}.
Proof.
  intros Hfs Ham Hpm. unfold read, h5py_File. simpl. rewrite Hfs.
  unfold resolve_overpass; simpl.
  apply String.eqb_neq in Ham, Hpm. rewrite Ham, Hpm. reflexivity.
Qed.

Lemma read_rejects_unknown_overpass_witness :
  returned (read Sample.fs
              (init Sample.grid16 "am.h5" "r" (ParamStr "soil_moisture")
                 (Some "ascending") true None true) None)
  = Raise AssertionError.
Proof.
  rewrite (read_rejects_unknown_overpass Sample.grid16 "am.h5" "r"
             (ParamStr "soil_moisture") "ascending" true None true
             Sample.fs None Sample.ds_am).
  - reflexivity.
  - vm_compute; reflexivity.
  - vm_compute; discriminate.
  - vm_compute; discriminate.
Defined.

Lemma omap_nil_all {A B : Type} (f : A -> option B) (l : list A) :
  (forall x, x ∈ l -> f x = None) -> omap f l = [].
Proof.
  induction l as [|x l IH]; intros H; simpl; [reflexivity|].
  rewrite (H x) by (left). apply IH. intros y Hy. apply H. right. exact Hy.
Qed.

(** One hit in a list without duplicates. *)
Lemma omap_unique {A B : Type} (f : A -> option B) (l : list A) (k : A) (y : B) :
  NoDup l -> k ∈ l -> f k = Some y ->
  (forall k', k' ∈ l -> is_Some (f k') -> k' = k) ->
  omap f l = [y].
Proof.
  induction 1 as [|x l Hx Hnd IH]; intros Hk Hy Huniq.
  - inversion Hk.
  - simpl. apply elem_of_cons in Hk as [<-|Hk].
    + rewrite Hy. f_equal. apply omap_nil_all. intros z Hz.
      destruct (f z) as [b|] eqn:Hfz; [|reflexivity].
      assert (z = k) as -> by (apply Huniq; [right; exact Hz|eexists; exact Hfz]).
      contradiction.
    + destruct (f x) as [b|] eqn:Hfx.
      * assert (x = k) as -> by (apply Huniq; [left|eexists; exact Hfx]).
        contradiction.
      * apply IH; [exact Hk|exact Hy|].
        intros k' Hk' Hs. apply Huniq; [right; exact Hk'|exact Hs].
Qed.

(** Two hits in a list without duplicates. *)
Lemma omap_two {A B : Type} (f : A -> option B) (l : list A) (k1 k2 : A) (y1 y2 : B) :
  k1 ∈ l -> k2 ∈ l -> k1 <> k2 -> f k1 = Some y1 -> f k2 = Some y2 ->
  (1 < length (omap f l))%nat.
Proof.
  assert (Hone : forall (l : list A) k y, k ∈ l -> f k = Some y ->
                   (0 < length (omap f l))%nat).
  { intros l0 k y Hk Hy.
    assert (Hin : y ∈ omap f l0) by (apply list_elem_of_omap; exists k; split; assumption).
    destruct (omap f l0); [inversion Hin|simpl; lia]. }
  induction l as [|x l IH]; intros H1 H2 Hne Hy1 Hy2; [inversion H1|].
  apply elem_of_cons in H1 as [<-|H1]; apply elem_of_cons in H2 as [<-|H2].
  - contradiction.
  - csimpl. rewrite Hy1. pose proof (Hone l k2 y2 H2 Hy2).
    change (length (y1 :: omap f l)) with (S (length (omap f l))). lia.
  - csimpl. rewrite Hy2. pose proof (Hone l k1 y1 H1 Hy1).
    change (length (y2 :: omap f l)) with (S (length (omap f l))). lia.
  - csimpl. specialize (IH H1 H2 Hne Hy1 Hy2).
    destruct (f x) as [b|]; [|exact IH].
    change (length (b :: omap f l)) with (S (length (omap f l))). lia.
Qed.

Lemma elem_of_h5_keys (ds : H5File) (k : string) : k ∈ h5_keys ds <-> is_Some (ds !! k).
Proof.
  unfold h5_keys. rewrite list_elem_of_fmap. split.
  - intros ([k' g] & -> & H). apply elem_of_map_to_list in H. eexists; exact H.
  - intros [g Hg]. exists (k, g). split; [reflexivity|].
    apply elem_of_map_to_list. exact Hg.
Qed.

(** X7: with the overpass unset, a file in which two different group
    names are matched by the template cannot be read: [read] raises the
    [IOError] of the ambiguity, whose list holds what follows the first
    character of both suffixes, and leaves the reader with its overpass
    unset. *)
Theorem read_ambiguous_overpass (fs : gmap string H5File) (self : t)
    (ts : option Datetime.datetime) (ds : H5File) (k1 k2 orbit1 orbit2 : string) :
  fs !! filename self = Some ds ->
  overpass self = None ->
  is_Some (ds !! k1) -> is_Some (ds !! k2) -> k1 <> k2 ->
  Parse.parse (overpass_templ self) k1 = Some orbit1 ->
  Parse.parse (overpass_templ self) k2 = Some orbit2 ->
  exists overpasses : list string,
    read fs self ts =
      {| returned := Raise (IOError_multiple_overpasses overpasses);
         self_after := self; warnings := [] |} /\
    PyStr.drop 1 orbit1 ∈ overpasses /\ PyStr.drop 1 orbit2 ∈ overpasses.
Proof.
  intros Hfs Hov Hk1 Hk2 Hne Hp1 Hp2.
  exists (find_overpasses (overpass_templ self) (h5_keys ds)). split.
  - unfold read, h5py_File. rewrite Hfs.
    rewrite resolve_overpass_multiple; [reflexivity|exact Hov|].
    unfold find_overpasses.
    apply (omap_two _ _ k1 k2 (PyStr.drop 1 orbit1) (PyStr.drop 1 orbit2)).
    + apply elem_of_h5_keys; exact Hk1.
    + apply elem_of_h5_keys; exact Hk2.
    + exact Hne.
    + rewrite Hp1; reflexivity.
    + rewrite Hp2; reflexivity.
  - split; apply elem_of_find_overpasses.
    + exists k1, orbit1. repeat split; assumption.
    + exists k2, orbit2. repeat split; assumption.
Qed.

Lemma read_ambiguous_overpass_witness :
  exists overpasses : list string,
    read Sample.fs
      (Sample.reader "both.h5" (ParamStr "soil_moisture") None Sample.grid16 true)
      None
    = {| returned := Raise (IOError_multiple_overpasses overpasses);
         self_after :=
           Sample.reader "both.h5" (ParamStr "soil_moisture") None Sample.grid16 true;
         warnings := [] |} /\
    "AM" ∈ overpasses /\ "PM" ∈ overpasses.
Proof.
  apply (read_ambiguous_overpass Sample.fs
           (Sample.reader "both.h5" (ParamStr "soil_moisture") None Sample.grid16 true)
           None Sample.ds_both
           "Soil_Moisture_Retrieval_Data_AM" "Soil_Moisture_Retrieval_Data_PM"
           "_AM" "_PM").
  - vm_compute; reflexivity.
  - reflexivity.
  - eexists; vm_compute; reflexivity.
  - eexists; vm_compute; reflexivity.
  - discriminate.
  - vm_compute; reflexivity.
  - vm_compute; reflexivity.
Defined.

(** X8: with the overpass unset and the template of the constructor, a
    file whose only group name matched by the template is the AM group
    (or the PM group) is read exactly as by the reader that has this
    overpass set: the same Image or exception, the same warnings, and the
    reader is left holding that overpass. *)
Theorem read_detected_overpass (fs : gmap string H5File) (self : t)
    (ts : option Datetime.datetime) (ds : H5File) (o : string) :
  o = "AM" \/ o = "PM" ->
  overpass self = None ->
  overpass_templ self = "Soil_Moisture_Retrieval_Data{orbit}" ->
  fs !! filename self = Some ds ->
  is_Some (ds !! ("Soil_Moisture_Retrieval_Data_" ++ o)) ->
  (forall k : string,
     is_Some (ds !! k) -> is_Some (Parse.parse (overpass_templ self) k) ->
     k = "Soil_Moisture_Retrieval_Data_" ++ o) ->
  read fs self ts = read fs (set_overpass (Some o) self) ts /\
  self_after (read fs self ts) = set_overpass (Some o) self.
Proof.
  intros Ho Hov Htempl Hfs Hgroup Huniq.
  assert (Hfind : find_overpasses (overpass_templ self) (h5_keys ds) = [o]).
  { unfold find_overpasses.
    apply (omap_unique _ _ ("Soil_Moisture_Retrieval_Data_" ++ o)).
    - apply NoDup_fst_map_to_list.
    - apply elem_of_h5_keys. exact Hgroup.
    - rewrite Htempl. destruct Ho as [-> | ->]; vm_compute; reflexivity.
    - intros k Hk Hs. apply Huniq; [apply elem_of_h5_keys; exact Hk|].
      destruct (Parse.parse (overpass_templ self) k); [eexists; reflexivity|].
      destruct Hs as [? [=]]. }
  assert (Hup : PyStr.upper o = o) by (destruct Ho as [-> | ->]; reflexivity).
  assert (Hres : resolve_overpass self ds = Ok (set_overpass (Some o) self))
    by (rewrite (resolve_overpass_single self ds o Hov Hfind), Hup; reflexivity).
  assert (Hres' : resolve_overpass (set_overpass (Some o) self) ds
                  = Ok (set_overpass (Some o) self)).
  { rewrite (resolve_overpass_fixed _ ds o) by reflexivity.
    destruct Ho as [-> | ->]; reflexivity. }
  unfold read, h5py_File.
  change (filename (set_overpass (Some o) self)) with (filename self).
  rewrite Hfs, Hres, Hres'. split; [reflexivity|].
  destruct (read_fields (set_overpass (Some o) self) ds) as [[[rd rm]|e] ws];
    reflexivity.
Qed.

Lemma read_detected_overpass_witness :
  read Sample.fs
    (Sample.reader "am.h5" (ParamStr "soil_moisture") None Sample.grid16 true) None
  = read Sample.fs
      (Sample.reader "am.h5" (ParamStr "soil_moisture") (Some "AM") Sample.grid16 true)
      None.
Proof.
  apply (read_detected_overpass Sample.fs
           (Sample.reader "am.h5" (ParamStr "soil_moisture") None Sample.grid16 true)
           None Sample.ds_am "AM").
  - left; reflexivity.
  - reflexivity.
  - reflexivity.
  - vm_compute; reflexivity.
  - eexists; vm_compute; reflexivity.
  - intros k Hk Hs. apply elem_of_h5_keys in Hk.
    remember (h5_keys Sample.ds_am) as ks eqn:E. vm_compute in E. subst ks.
    repeat (apply elem_of_cons in Hk as [-> | Hk];
            [first [reflexivity
                   |destruct Hs as [x Hx]; vm_compute in Hx; discriminate]|]).
    inversion Hk.
Defined.

End Overpass.

(** ** SPL3SMP_Img.read: groups, fields and indices that are missing *)

Section Missing.
Import SPL3SMP_Img.

Lemma for_each_Forall2 {A B : Type} (body : A -> result B) (xs : list A) (ys : list B) :
  for_each body xs = Ok ys <-> Forall2 (fun x y => body x = Ok y) xs ys.
Proof.
  revert ys; induction xs as [|x xs IH]; intros ys; simpl.
  - split; [intros [= <-]; constructor|intros H; inversion H; reflexivity].
  - split.
    + destruct (body x) as [y|e] eqn:Hy; simpl; [|discriminate].
      destruct (for_each body xs) as [ys'|e]; simpl; [|discriminate].
      intros [= <-]. constructor; [exact Hy|]. apply IH. reflexivity.
    + intros H. inversion H as [|x' y xs' ys' Hy Hrest]; subst.
      rewrite Hy; simpl. apply IH in Hrest. rewrite Hrest. reflexivity.
Qed.

(** The first element on which the body raises ends the loop. *)
Lemma for_each_first_raise {A B : Type} (body : A -> result B)
    (xs1 : list A) (x : A) (xs2 : list A) (e : exn) :
  Forall (fun q => is_ok (body q) = true) xs1 ->
  body x = Raise e ->
  for_each body (xs1 ++ x :: xs2) = Raise e.
Proof.
  intros Hok Hx. induction Hok as [|q xs1 Hq _ IH]; simpl.
  - rewrite Hx. reflexivity.
  - destruct (body q) as [y|e']; [|discriminate]. simpl. rewrite IH. reflexivity.
Qed.

Lemma for_each_raise_inv {A B : Type} (body : A -> result B) (xs : list A) (e : exn) :
  for_each body xs = Raise e ->
  exists (xs1 : list A) (x : A) (xs2 : list A),
    xs = (xs1 ++ x :: xs2)%list /\
    Forall (fun q => is_ok (body q) = true) xs1 /\ body x = Raise e.
Proof.
  induction xs as [|x xs IH]; simpl; [discriminate|].
  destruct (body x) as [y|e'] eqn:Hx; simpl.
  - destruct (for_each body xs) as [ys|e'] eqn:Hxs; simpl; [discriminate|].
    intros [= <-]. destruct (IH eq_refl) as (xs1 & x' & xs2 & -> & Hok & Hx').
    exists (x :: xs1), x', xs2. split; [reflexivity|]. split; [|exact Hx'].
    constructor; [rewrite Hx; reflexivity|exact Hok].
  - intros [= <-]. exists [], x, xs. split; [reflexivity|]. split; [constructor|exact Hx].
Qed.

Lemma getitem_ok (a : list Z) (i v : Z) :
  Np.getitem a i = Ok v <->
  (- Z.of_nat (length a) <= i < Z.of_nat (length a))%Z /\
  a !! Z.to_nat (i mod Z.of_nat (length a)) = Some v.
Proof.
  unfold Np.getitem. set (n := Z.of_nat (length a)).
  destruct (i <? 0)%Z eqn:Hneg; [apply Z.ltb_lt in Hneg|apply Z.ltb_ge in Hneg].
  - destruct ((0 <=? i + n)%Z && (i + n <? n)%Z) eqn:E.
    + apply andb_true_iff in E as [E1 E2]. apply Z.leb_le in E1. apply Z.ltb_lt in E2.
      replace (i mod n)%Z with (i + n)%Z
        by (apply (Z.mod_unique_pos _ _ (-1)); lia).
      destruct (a !! Z.to_nat (i + n)) as [w|] eqn:Hw.
      * split; [intros [= <-]; split; [lia|reflexivity]|intros [_ [= <-]]; reflexivity].
      * split; [discriminate|intros [_ [=]]].
    + split; [discriminate|]. intros [Hr _].
      apply andb_false_iff in E as [E|E];
        [apply Z.leb_gt in E|apply Z.ltb_ge in E]; lia.
  - destruct ((0 <=? i)%Z && (i <? n)%Z) eqn:E.
    + apply andb_true_iff in E as [E1 E2]. apply Z.leb_le in E1. apply Z.ltb_lt in E2.
      rewrite Z.mod_small by lia.
      destruct (a !! Z.to_nat i) as [w|] eqn:Hw.
      * split; [intros [= <-]; split; [lia|reflexivity]|intros [_ [= <-]]; reflexivity].
      * split; [discriminate|intros [_ [=]]].
    + split; [discriminate|]. intros [Hr _].
      apply andb_false_iff in E as [E|E];
        [apply Z.leb_gt in E|apply Z.ltb_ge in E]; lia.
Qed.

Lemma getitem_in_bounds (a : list Z) (i : Z) :
  (- Z.of_nat (length a) <= i < Z.of_nat (length a))%Z ->
  is_ok (Np.getitem a i) = true.
Proof.
  intros Hr.
  destruct (lookup_lt_is_Some_2 a (Z.to_nat (i mod Z.of_nat (length a)))) as [v Hv].
  { pose proof (Z.mod_pos_bound i (Z.of_nat (length a))). lia. }
  rewrite (proj2 (getitem_ok a i v)); [reflexivity|]. split; assumption.
Qed.

Lemma getitem_out_of_bounds (a : list Z) (i : Z) :
  ~ (- Z.of_nat (length a) <= i < Z.of_nat (length a))%Z ->
  Np.getitem a i = Raise (IndexError_index i).
Proof.
  intros Hr. unfold Np.getitem. set (n := Z.of_nat (length a)) in *.
  destruct (i <? 0)%Z eqn:Hneg; [apply Z.ltb_lt in Hneg|apply Z.ltb_ge in Hneg].
  - destruct ((0 <=? i + n)%Z && (i + n <? n)%Z) eqn:E; [|reflexivity].
    apply andb_true_iff in E as [E1 E2]. apply Z.leb_le in E1. apply Z.ltb_lt in E2. lia.
  - destruct ((0 <=? i)%Z && (i <? n)%Z) eqn:E; [|reflexivity].
    apply andb_true_iff in E as [E1 E2]. apply Z.leb_le in E1. apply Z.ltb_lt in E2. lia.
Qed.

(** X9: a reader whose overpass is AM (or PM) and whose template is the
    one of the constructor cannot read a file that lacks the group of
    that overpass: [read] raises the [NameError] that names the group,
    and leaves the reader as it was. *)
Theorem read_missing_group (fs : gmap string H5File) (self : t)
    (ts : option Datetime.datetime) (ds : H5File) (o : string) :
  fs !! filename self = Some ds ->
  overpass self = Some o -> o = "AM" \/ o = "PM" ->
  overpass_templ self = "Soil_Moisture_Retrieval_Data{orbit}" ->
  ds !! ("Soil_Moisture_Retrieval_Data_" ++ o) = None ->
  read fs self ts =
    {| returned := Raise (NameError_field ("Soil_Moisture_Retrieval_Data_" ++ o));
       self_after := self; warnings := [] |}.
Proof.
  intros Hfs Hov Ho Htempl Hnone.
  assert (Hfield : sm_field self = "Soil_Moisture_Retrieval_Data_" ++ o).
  { unfold sm_field. rewrite Hov, Htempl, format_overpass_templ.
    destruct Ho as [-> | ->]; reflexivity. }
  unfold read, h5py_File. rewrite Hfs.
  rewrite (resolve_overpass_fixed self ds o Hov).
  replace (String.eqb o "AM" || String.eqb o "PM") with true
    by (destruct Ho as [-> | ->]; reflexivity).
  unfold read_fields. rewrite Hfield, Hnone. reflexivity.
Qed.

Lemma read_missing_group_witness :
  returned (read Sample.fs
              (Sample.reader "am.h5" (ParamStr "soil_moisture") (Some "PM")
                 Sample.grid16 true) None)
  = Raise (NameError_field "Soil_Moisture_Retrieval_Data_PM").
Proof.
  rewrite (read_missing_group Sample.fs
             (Sample.reader "am.h5" (ParamStr "soil_moisture") (Some "PM")
                Sample.grid16 true) None Sample.ds_am "PM").
  - reflexivity.
  - vm_compute; reflexivity.
  - reflexivity.
  - right; reflexivity.
  - reflexivity.
  - vm_compute; reflexivity.
Defined.

(** A parameter name that addresses a direct member of a group still
    does with the suffix of the overpass. *)
Lemma contains_slash_app (p s : string) :
  PyStr.contains "/" p = false -> PyStr.contains "/" s = false ->
  PyStr.contains "/" (p ++ s) = false.
Proof.
  intros Hp Hs. induction p as [|c p IH]; [exact Hs|].
  change (String c p ++ s) with (String c (p ++ s)).
  change (PyStr.contains "/" (String c p))
    with (String.prefix "/" (String c p) || PyStr.contains "/" p) in Hp.
  change (PyStr.contains "/" (String c (p ++ s)))
    with (String.prefix "/" (String c (p ++ s)) || PyStr.contains "/" (p ++ s)).
  apply orb_false_iff in Hp as [Hc Hp]. rewrite (IH Hp), orb_false_r.
  change (String.prefix "/" (String c p))
    with (if ascii_dec "/" c then String.prefix "" p else false) in Hc.
  change (String.prefix "/" (String c (p ++ s)))
    with (if ascii_dec "/" c then String.prefix "" (p ++ s) else false).
  destruct (ascii_dec "/" c); [|reflexivity].
  destruct p; discriminate.
Qed.

Lemma h5_plain_name_field_suffix (p : string) (o : option string) :
  h5_plain_name p = true -> h5_plain_name (p ++ field_suffix o) = true.
Proof.
  assert (Hsuf : field_suffix o = "" \/ field_suffix o = "_pm").
  { unfold field_suffix. destruct o as [o|]; [|left; reflexivity].
    destruct (PyStr.truthy o); [|left; reflexivity].
    destruct (String.eqb o "PM"); [right|left]; reflexivity. }
  destruct Hsuf as [-> | ->]; [rewrite str_append_nil_r; exact (fun H => H)|].
  unfold h5_plain_name. intros H.
  apply andb_true_iff in H as [H Hne]. apply andb_true_iff in H as [Hc _].
  apply negb_true_iff in Hc, Hne.
  rewrite (contains_slash_app p "_pm" Hc eq_refl).
  apply andb_true_iff; split; [apply andb_true_iff; split; [reflexivity|]|];
    apply negb_true_iff, String.eqb_neq;
    destruct p as [|c [|c' p]]; discriminate.
Qed.

(** X10: for parameter names that address direct members of a group
    (no path), when the parameters before [p] can all be loaded and the
    group has no field of the name [p] with the suffix of the overpass
    (["_pm"] for PM, nothing for AM), [read] raises the [KeyError] of that
    field name, in flatten mode and in raster mode alike, without a
    warning. *)
Theorem read_missing_field (fs : gmap string H5File) (self self' : t)
    (ts : option Datetime.datetime) (ds : H5File) (group : Group)
    (ps1 : list string) (p : string) (ps2 : list string) :
  fs !! filename self = Some ds ->
  resolve_overpass self ds = Ok self' ->
  ds !! sm_field self' = Some group ->
  parameters self = (ps1 ++ p :: ps2)%list ->
  Forall (fun q => h5_plain_name q = true) (ps1 ++ [p]) ->
  Forall (fun q => is_ok (read_parameter self' group q) = true) ps1 ->
  group !! (p ++ field_suffix (overpass self')) = None ->
  returned (read fs self ts) = Raise (KeyError (p ++ field_suffix (overpass self'))) /\
  warnings (read fs self ts) = [] /\
  field_suffix (Some "PM") = "_pm" /\ field_suffix (Some "AM") = "".
Proof.
  intros Hfs Hres Hgroup Hps _ Hok Hnone.
  destruct (resolve_overpass_grid _ _ _ Hres) as (_ & Hps' & _).
  assert (Hp : read_parameter self' group p
               = Raise (KeyError (p ++ field_suffix (overpass self')))).
  { unfold read_parameter, h5_getitem. rewrite Hnone. reflexivity. }
  pose proof (for_each_first_raise _ ps1 p ps2 _ Hok Hp) as Hloop.
  unfold read, h5py_File. rewrite Hfs, Hres. unfold read_fields.
  rewrite Hgroup, Hps', Hps.
  pose proof (read_parameters_raise self' group _ _ ∅ ∅ Hloop) as Hraise.
  assert (Hws : (read_parameters self' group (ps1 ++ p :: ps2) ∅ ∅).2 = []).
  { clear Hraise Hloop Hps Hps'. generalize (∅ : gmap string (list Z)).
    generalize (∅ : gmap string (gmap string Z)).
    induction Hok as [|q ps1 Hq _ IH]; intros rm rd; simpl.
    - rewrite Hp. reflexivity.
    - destruct (read_parameter self' group q) as [x|e] eqn:Hx; [|reflexivity].
      specialize (IH (store_meta rm x) (store_data rd x)).
      destruct (read_parameters self' group _ _ _) as [r ws]. simpl in *.
      rewrite IH, app_nil_r.
      unfold read_parameter in Hx.
      destruct (h5_getitem group _) as [param|e]; simpl in Hx; [|discriminate].
      destruct (Np.fancy_index _ _) as [raw|e]; simpl in Hx; [|discriminate].
      destruct (resolve_overpass_ok _ _ _ Hres) as [[[o Ho] ->]|(_ & o & _ & ->)].
      + unfold ret_param_name in Hx. rewrite Ho in Hx.
        destruct (var_overpass_str self); [|injection Hx as <-; reflexivity].
        destruct (negb _); injection Hx as <-; reflexivity.
      + unfold ret_param_name in Hx. simpl in Hx.
        destruct (var_overpass_str self); [|injection Hx as <-; reflexivity].
        destruct (negb _); injection Hx as <-; reflexivity. }
  destruct (read_parameters self' group (ps1 ++ p :: ps2) ∅ ∅) as [r ws].
  simpl in Hraise, Hws. subst r ws. repeat split.
Qed.

Lemma read_missing_field_witness :
  returned (read Sample.fs
              (Sample.reader "both.h5"
                 (ParamList ["soil_moisture"; "surface_flag"]) (Some "PM")
                 Sample.grid16 false) None)
  = Raise (KeyError "surface_flag_pm").
Proof.
  destruct (read_missing_field Sample.fs
              (Sample.reader "both.h5"
                 (ParamList ["soil_moisture"; "surface_flag"]) (Some "PM")
                 Sample.grid16 false)
              (Sample.reader "both.h5"
                 (ParamList ["soil_moisture"; "surface_flag"]) (Some "PM")
                 Sample.grid16 false)
              None Sample.ds_both
              {[ "soil_moisture_pm" := mk_Dataset Sample.rows4 ∅;
                 "soil_moisture_pm_pm" :=
                   mk_Dataset Sample.rows4_other Sample.partial_attrs ]}
              ["soil_moisture"] "surface_flag" []) as (H & _).
  - vm_compute; reflexivity.
  - vm_compute; reflexivity.
  - vm_compute; reflexivity.
  - reflexivity.
  - repeat constructor.
  - repeat constructor.
  - vm_compute; reflexivity.
  - exact H.
Defined.

End Missing.

(** ** SPL3SMP_Img.read: what the Image returned is made of *)

Section Loaded.
Import SPL3SMP_Img.

(** What a pass through the loop body that raised nothing has read. *)
Lemma read_parameter_inv (self : t) (group : Group) (p : string) (x : loaded) :
  read_parameter self group p = Ok x ->
  exists (param : Dataset) (raw : list Z),
    group !! (p ++ field_suffix (overpass self)) = Some param /\
    Np.fancy_index (Np.flatten (Np.flipud (values param)))
                   (activegpis (grid self)) = Ok raw /\
    ret_data x = mask (attrs param) raw /\
    ret_meta x = attrs param.
Proof.
  unfold read_parameter, h5_getitem.
  destruct (group !! (p ++ field_suffix (overpass self))) as [param|]; simpl;
    [|discriminate].
  destruct (Np.fancy_index _ _) as [raw|e] eqn:Hraw; simpl; [|discriminate].
  destruct (ret_param_name _ _ _) as [name w]. intros [= <-]. simpl.
  exists param, raw. split; [reflexivity|]. split; [exact Hraw|].
  split; [reflexivity|apply copy_attrs_id].
Qed.

Lemma fancy_index_in_bounds (a : list Z) (idx : list Z) (raw : list Z) :
  Np.fancy_index a idx = Ok raw ->
  Forall (fun i => (- Z.of_nat (length a) <= i < Z.of_nat (length a))%Z) idx.
Proof.
  intros Hraw. apply for_each_Forall2 in Hraw. apply Forall_lookup. intros k i Hk.
  destruct (Forall2_lookup_l _ _ _ _ _ Hraw Hk) as (v & _ & Hget).
  apply getitem_ok in Hget as [Hr _]. exact Hr.
Qed.

(** X11: a parameter that is loaded comes from the field of its name
    with the suffix of the overpass: its metadata are the attributes of
    the field, all of them and unchanged, and its values are the masked
    reindexing of the field: before masking, the value at position [k] is
    the value that the row-reversed, flattened field has at the index
    that the grid gives for [k], an index [i < 0] counting from the
    end. *)
Theorem read_parameter_reindex (self : t) (group : Group) (p : string) (x : loaded) :
  read_parameter self group p = Ok x ->
  exists (param : Dataset) (raw : list Z),
    group !! (p ++ field_suffix (overpass self)) = Some param /\
    ret_meta x = attrs param /\
    ret_data x = mask (attrs param) raw /\
    length raw = length (activegpis (grid self)) /\
    forall (k : nat) (i : Z),
      activegpis (grid self) !! k = Some i ->
      (- Z.of_nat (length (Np.flatten (Np.flipud (values param)))) <= i
       < Z.of_nat (length (Np.flatten (Np.flipud (values param)))))%Z /\
      raw !! k =
        Np.flatten (Np.flipud (values param))
          !! Z.to_nat (i mod Z.of_nat (length (Np.flatten (Np.flipud (values param))))).
Proof.
  unfold read_parameter, h5_getitem.
  destruct (group !! (p ++ field_suffix (overpass self))) as [param|]; simpl;
    [|discriminate].
  destruct (Np.fancy_index _ _) as [raw|e] eqn:Hraw; simpl; [|discriminate].
  destruct (ret_param_name _ _ _) as [name w]. intros [= <-]. simpl.
  exists param, raw. split; [reflexivity|]. split; [apply copy_attrs_id|].
  split; [reflexivity|]. split; [eapply fancy_index_length; exact Hraw|].
  intros k i Hk. apply for_each_Forall2 in Hraw.
  destruct (Forall2_lookup_l _ _ _ _ _ Hraw Hk) as (v & Hv & Hget).
  apply getitem_ok in Hget as [Hr Hlook]. split; [exact Hr|].
  rewrite Hv, Hlook. reflexivity.
Qed.

Lemma read_parameter_reindex_witness :
  exists (x : loaded) (raw : list Z),
    read_parameter (Sample.reader "am.h5" (ParamStr "soil_moisture") (Some "AM")
                      Sample.grid_land true)
      {[ "soil_moisture" := mk_Dataset Sample.rows4 ∅ ]} "soil_moisture" = Ok x /\
    ret_data x = raw /\ ret_meta x = ∅ /\ raw !! 1%nat = Some 9%Z.
Proof.
  eexists. 
  destruct (read_parameter_reindex
              (Sample.reader "am.h5" (ParamStr "soil_moisture") (Some "AM")
                 Sample.grid_land true)
              {[ "soil_moisture" := mk_Dataset Sample.rows4 ∅ ]} "soil_moisture"
              {| ret_name := "soil_moisture_am"; ret_data := [12; 9; 6]%Z;
                 ret_meta := ∅; ret_warn := [] |})
    as (param & raw & Hparam & Hmeta & Hdata & _ & Hidx).
  - vm_compute; reflexivity.
  - assert (Hp : param = mk_Dataset Sample.rows4 ∅)
      by (vm_compute in Hparam; injection Hparam as <-; reflexivity).
    subst param. exists raw. split; [vm_compute; reflexivity|].
    split; [exact Hdata|]. split; [exact Hmeta|].
    destruct (Hidx 1%nat 5%Z eq_refl) as [_ ->]. reflexivity.
Defined.

(** X12: when the field is present and the grid holds an index outside
    the flattened field, the first such index [i] makes the loop body
    raise [IndexError] for [i]; nothing is returned for the parameter. *)
Theorem read_parameter_index_error (self : t) (group : Group) (p : string)
    (param : Dataset) (g1 : list Z) (i : Z) (g2 : list Z) :
  group !! (p ++ field_suffix (overpass self)) = Some param ->
  activegpis (grid self) = (g1 ++ i :: g2)%list ->
  Forall (fun j =>
            (- Z.of_nat (length (Np.flatten (Np.flipud (values param)))) <= j
             < Z.of_nat (length (Np.flatten (Np.flipud (values param)))))%Z) g1 ->
  ~ (- Z.of_nat (length (Np.flatten (Np.flipud (values param)))) <= i
     < Z.of_nat (length (Np.flatten (Np.flipud (values param)))))%Z ->
  read_parameter self group p = Raise (IndexError_index i).
Proof.
  intros Hparam Hgpis Hin Hout. unfold read_parameter, h5_getitem.
  rewrite Hparam; simpl. rewrite Hgpis. unfold Np.fancy_index.
  rewrite (for_each_first_raise _ g1 i g2 (IndexError_index i)).
  - reflexivity.
  - eapply Forall_impl; [exact Hin|]. intros j Hj. apply getitem_in_bounds. exact Hj.
  - apply getitem_out_of_bounds. exact Hout.
Qed.

Lemma read_parameter_index_error_witness :
  read_parameter
    (Sample.reader "am.h5" (ParamStr "soil_moisture") (Some "AM")
       (mk_CellGrid [0; -16; 16; 3]%Z [] [] [4]%nat) true)
    {[ "soil_moisture" := mk_Dataset Sample.rows4 ∅ ]} "soil_moisture"
  = Raise (IndexError_index 16).
Proof.
  apply (read_parameter_index_error _ _ _ (mk_Dataset Sample.rows4 ∅)
           [0; -16]%Z 16%Z [3]%Z).
  - vm_compute; reflexivity.
  - reflexivity.
  - constructor; [simpl; lia|]. constructor; [simpl; lia|]. constructor.
  - simpl. lia.
Defined.

Lemma read_parameter_name (self : t) (group : Group) (p : string) (x : loaded) :
  read_parameter self group p = Ok x ->
  ret_name x = (ret_param_name (var_overpass_str self) (overpass self) p).1 /\
  ret_warn x = (ret_param_name (var_overpass_str self) (overpass self) p).2.
Proof.
  unfold read_parameter.
  destruct (h5_getitem group _) as [param|e]; simpl; [|discriminate].
  destruct (Np.fancy_index _ _) as [raw|e]; simpl; [|discriminate].
  destruct (ret_param_name _ _ _) as [name w]. intros [= <-]. split; reflexivity.
Qed.

Lemma dom_foldl_store_data (xs : list loaded) (rd : gmap string (list Z)) :
  dom (foldl store_data rd xs) = dom rd ∪ list_to_set (ret_name <$> xs).
Proof.
  revert rd; induction xs as [|x xs IH]; intros rd; simpl.
  - rewrite (right_id_L ∅ (∪)). reflexivity.
  - rewrite IH. unfold store_data. rewrite dom_insert_L.
    rewrite (union_comm_L {[ret_name x]}), <- union_assoc_L. reflexivity.
Qed.

Lemma dom_foldl_store_meta (xs : list loaded) (rm : gmap string (gmap string Z)) :
  dom (foldl store_meta rm xs) = dom rm ∪ list_to_set (ret_name <$> xs).
Proof.
  revert rm; induction xs as [|x xs IH]; intros rm; simpl.
  - rewrite (right_id_L ∅ (∪)). reflexivity.
  - rewrite IH. unfold store_meta. rewrite dom_insert_L.
    rewrite (union_comm_L {[ret_name x]}), <- union_assoc_L. reflexivity.
Qed.

Lemma foldl_store_meta_lookup (xs : list loaded) (rm : gmap string (gmap string Z))
    (name : string) (m : gmap string Z) :
  foldl store_meta rm xs !! name = Some m ->
  rm !! name = Some m \/ exists x, x ∈ xs /\ ret_name x = name /\ ret_meta x = m.
Proof.
  revert rm; induction xs as [|x xs IH]; intros rm; simpl; [intros H; left; exact H|].
  intros H. destruct (IH _ H) as [Hrm|(y & Hy & Hn & Hm)].
  - unfold store_meta in Hrm. destruct (decide (ret_name x = name)) as [Heq|Hne].
    + rewrite Heq, lookup_insert_eq in Hrm. injection Hrm as <-.
      right. exists x. split; [left|]. split; [exact Heq|reflexivity].
    + rewrite lookup_insert_ne in Hrm by exact Hne. left. exact Hrm.
  - right. exists y. split; [right; exact Hy|]. split; assumption.
Qed.

Lemma read_fields_inv (self : t) (ds : H5File)
    (rd : gmap string (list Z)) (rm : gmap string (gmap string Z)) :
  (read_fields self ds).1 = Ok (rd, rm) ->
  exists (group : Group) (xs : list loaded),
    ds !! sm_field self = Some group /\
    Forall2 (fun p x => read_parameter self group p = Ok x) (parameters self) xs /\
    rd = foldl store_data ∅ xs /\ rm = foldl store_meta ∅ xs.
Proof.
  unfold read_fields. destruct (ds !! sm_field self) as [group|]; [|discriminate].
  destruct (for_each (read_parameter self group) (parameters self)) as [xs|e] eqn:E.
  - rewrite (read_parameters_ok _ _ _ _ _ _ E). simpl. intros [= <- <-].
    exists group, xs. split; [reflexivity|].
    split; [apply for_each_Forall2; exact E|]. split; reflexivity.
  - rewrite (read_parameters_raise _ _ _ _ _ _ E). discriminate.
Qed.

Lemma shape_image_ok_inv (self : t) (rd : gmap string (list Z))
    (rm : gmap string (gmap string Z)) (ts : option Datetime.datetime) (img : Image) :
  shape_image self rd rm ts = Ok img ->
  metadata img = rm /\ timestamp img = ts /\ dom (data img) = dom rd.
Proof.
  intros H. destruct (flatten self) eqn:Hfl.
  - rewrite shape_image_flatten in H by exact Hfl. injection H as <-. simpl.
    rewrite dom_fmap_L. repeat split.
  - destruct (shape_image_raster_inv _ _ _ _ _ Hfl H)
      as (r & c & Hshape & Hlon & Hlat & Hrd).
    rewrite (shape_image_raster _ _ _ _ r c Hfl Hshape Hlon Hlat Hrd) in H.
    injection H as <-. simpl. rewrite dom_fmap_L. repeat split.
Qed.

(** X13: every Image that [read] returns has the timestamp given by the
    caller and the same names in its data as in its metadata: exactly the
    names under which the requested parameters are returned. Each
    metadata entry is the unchanged set of attributes of the field of a
    requested parameter of that name. *)
Theorem read_image_entries (fs : gmap string H5File) (self : t)
    (ts : option Datetime.datetime) (img : Image) :
  returned (read fs self ts) = Ok img ->
  timestamp img = ts /\
  dom (data img) = dom (metadata img) /\
  exists (ds : H5File) (self' : t) (group : Group),
    fs !! filename self = Some ds /\
    resolve_overpass self ds = Ok self' /\
    ds !! sm_field self' = Some group /\
    (forall name : string,
       name ∈ dom (metadata img) <->
       exists p : string,
         p ∈ parameters self /\
         name = (ret_param_name (var_overpass_str self) (overpass self') p).1) /\
    (forall (name : string) (m : gmap string Z),
       metadata img !! name = Some m ->
       exists (p : string) (param : Dataset),
         p ∈ parameters self /\
         name = (ret_param_name (var_overpass_str self) (overpass self') p).1 /\
         group !! (p ++ field_suffix (overpass self')) = Some param /\
         m = attrs param).
Proof.
  intros H. apply read_ok_inv in H as (ds & self' & rd & rm & Hfs & Hres & Hf & Himg).
  destruct (shape_image_ok_inv _ _ _ _ _ Himg) as (Hmeta & Hts & Hdom).
  destruct (read_fields_inv _ _ _ _ Hf) as (group & xs & Hgroup & Hxs & -> & ->).
  destruct (resolve_overpass_grid _ _ _ Hres) as (_ & Hps & Hv & _).
  rewrite Hps in Hxs. rewrite <- Hv.
  split; [exact Hts|].
  split; [rewrite Hdom, Hmeta, dom_foldl_store_data, dom_foldl_store_meta; reflexivity|].
  exists ds, self', group. repeat split; try assumption.
  - rewrite Hmeta, dom_foldl_store_meta, dom_empty_L, elem_of_union,
      elem_of_list_to_set, list_elem_of_fmap.
    intros [Hemp|(x & -> & Hx)]; [destruct (not_elem_of_empty _ Hemp)|].
    apply list_elem_of_lookup in Hx as [k Hk].
    destruct (Forall2_lookup_r _ _ _ _ _ Hxs Hk) as (p & Hp & Hread).
    exists p. split; [apply list_elem_of_lookup; eexists; exact Hp|].
    apply (read_parameter_name _ _ _ _ Hread).
  - intros (p & Hp & ->). rewrite Hmeta, dom_foldl_store_meta, elem_of_union,
      elem_of_list_to_set, list_elem_of_fmap. right.
    apply list_elem_of_lookup in Hp as [k Hk].
    destruct (Forall2_lookup_l _ _ _ _ _ Hxs Hk) as (x & Hx & Hread).
    exists x. split; [symmetry; apply (read_parameter_name _ _ _ _ Hread)|].
    apply list_elem_of_lookup. eexists; exact Hx.
  - intros name m Hm. rewrite Hmeta in Hm.
    apply foldl_store_meta_lookup in Hm as [Hm|(x & Hx & Hn & Hmx)];
      [rewrite lookup_empty in Hm; discriminate|].
    apply list_elem_of_lookup in Hx as [k Hk].
    destruct (Forall2_lookup_r _ _ _ _ _ Hxs Hk) as (p & Hp & Hread).
    destruct (read_parameter_inv _ _ _ _ Hread)
      as (param & raw & Hparam & _ & _ & Hmetax).
    exists p, param. split; [apply list_elem_of_lookup; eexists; exact Hp|].
    split; [rewrite <- Hn; apply (read_parameter_name _ _ _ _ Hread)|].
    split; [exact Hparam|]. rewrite <- Hmx. exact Hmetax.
Qed.

Lemma read_image_entries_witness :
  exists img : Image,
    returned (read Sample.fs
                (Sample.reader "am.h5" (ParamList ["soil_moisture"; "surface_flag"])
                   (Some "AM") Sample.grid16 true) None) = Ok img /\
    timestamp img = None /\ dom (data img) = dom (metadata img).
Proof.
  eexists. split; [vm_compute; reflexivity|].
  match goal with
  | |- timestamp ?i = _ /\ _ =>
      destruct (read_image_entries Sample.fs
                  (Sample.reader "am.h5" (ParamList ["soil_moisture"; "surface_flag"])
                     (Some "AM") Sample.grid16 true) None i) as (H1 & H2 & _)
  end.
  - vm_compute; reflexivity.
  - split; [exact H1|exact H2].
Defined.

Lemma read_flatten_coordinates (fs : gmap string H5File) (self : t)
    (ts : option Datetime.datetime) (img : Image) :
  flatten self = true ->
  returned (read fs self ts) = Ok img ->
  lon img = Arr1 (activearrlon (grid self)) /\
  lat img = Arr1 (activearrlat (grid self)).
Proof.
  intros Hfl H. apply read_ok_inv in H as (ds & self' & rd & rm & Hfs & Hres & Hf & Himg).
  destruct (resolve_overpass_grid _ _ _ Hres) as (Hg & _ & _ & Hfl').
  rewrite shape_image_flatten in Himg by (rewrite Hfl'; exact Hfl).
  injection Himg as <-. simpl. rewrite Hg. split; reflexivity.
Qed.

(** X14: in flatten mode every Image returned has the active longitudes
    and latitudes of the grid as its coordinates, as they are, and each
    of its data arrays is 1-D with one element for every active index of
    the grid. *)
Theorem read_flatten_image (fs : gmap string H5File) (self : t)
    (ts : option Datetime.datetime) (img : Image) :
  flatten self = true ->
  returned (read fs self ts) = Ok img ->
  lon img = Arr1 (activearrlon (grid self)) /\
  lat img = Arr1 (activearrlat (grid self)) /\
  forall (name : string) (a : ndarray),
    data img !! name = Some a ->
    exists d : list Z, a = Arr1 d /\ length d = length (activegpis (grid self)).
Proof.
  intros Hfl H. apply read_ok_inv in H as (ds & self' & rd & rm & Hfs & Hres & Hf & Himg).
  destruct (resolve_overpass_grid _ _ _ Hres) as (Hg & _ & _ & Hfl').
  rewrite shape_image_flatten in Himg by (rewrite Hfl'; exact Hfl).
  injection Himg as <-. simpl. rewrite Hg. split; [reflexivity|]. split; [reflexivity|].
  intros name a. rewrite lookup_fmap.
  destruct (rd !! name) as [d|] eqn:Hd; simpl; [|discriminate].
  intros [= <-]. exists d. split; [reflexivity|].
  rewrite <- Hg. apply (read_fields_length _ _ _ _ Hf name d Hd).
Qed.

Lemma read_flatten_image_witness :
  exists img : Image,
    returned (read Sample.fs
                (Sample.reader "am.h5" (ParamStr "soil_moisture") (Some "AM")
                   Sample.grid_land true) None) = Ok img /\
    lon img = Arr1 [0; 1; 2]%Z /\
    data img !! "soil_moisture_am" = Some (Arr1 [12; 9; 6]%Z).
Proof.
  eexists. split; [vm_compute; reflexivity|].
  match goal with
  | |- lon ?i = _ /\ _ =>
      destruct (read_flatten_image Sample.fs
                  (Sample.reader "am.h5" (ParamStr "soil_moisture") (Some "AM")
                     Sample.grid_land true) None i) as (H1 & _)
  end.
  - reflexivity.
  - vm_compute; reflexivity.
  - split; [exact H1|vm_compute; reflexivity].
Defined.

Lemma resolve_overpass_is_Some (self self' : t) (ds : H5File) :
  resolve_overpass self ds = Ok self' -> is_Some (overpass self').
Proof.
  intros H. destruct (resolve_overpass_ok _ _ _ H) as [[Hs ->]|(_ & o & _ & ->)];
    [exact Hs|eexists; reflexivity].
Qed.

Lemma read_parameters_no_warning (self : t) (group : Group) (ps : list string)
    (rd : gmap string (list Z)) (rm : gmap string (gmap string Z)) :
  is_Some (overpass self) ->
  (read_parameters self group ps rd rm).2 = [].
Proof.
  intros [o Ho]. revert rd rm; induction ps as [|p ps IH]; intros rd rm; simpl;
    [reflexivity|].
  destruct (read_parameter self group p) as [x|e] eqn:Hx; [|reflexivity].
  specialize (IH (store_data rd x) (store_meta rm x)).
  destruct (read_parameters self group ps _ _) as [r ws]. simpl in *. subst ws.
  rewrite app_nil_r. destruct (read_parameter_name _ _ _ _ Hx) as [_ ->].
  unfold ret_param_name. rewrite Ho.
  destruct (var_overpass_str self); [|reflexivity].
  destruct (negb _); reflexivity.
Qed.

(** X15: [read] never emits the warning of the renaming step, whatever
    the reader and the file: once the overpass is resolved it is never
    [None], so the branch that warns is not reached. *)
Theorem read_never_warns (fs : gmap string H5File) (self : t)
    (ts : option Datetime.datetime) :
  warnings (read fs self ts) = [].
Proof.
  unfold read. destruct (h5py_File fs (filename self)) as [ds|e]; [|reflexivity].
  destruct (resolve_overpass self ds) as [self'|e] eqn:Hres; [|reflexivity].
  pose proof (resolve_overpass_is_Some _ _ _ Hres) as Hsome.
  unfold read_fields. destruct (ds !! sm_field self') as [group|]; [|reflexivity].
  pose proof (read_parameters_no_warning self' group (parameters self') ∅ ∅ Hsome) as Hw.
  destruct (read_parameters self' group (parameters self') ∅ ∅) as [[[rd rm]|e] ws];
    simpl in *; exact Hw.
Qed.

End Loaded.

(** ** SPL3SMP_Img.read: reading again, masking twice, cells of a raster *)

Section Again.
Import SPL3SMP_Img.

Lemma resolve_overpass_filename (self self' : t) (ds : H5File) :
  resolve_overpass self ds = Ok self' -> filename self' = filename self.
Proof.
  intros H. destruct (resolve_overpass_ok _ _ _ H) as [[_ ->]|(_ & o & _ & ->)];
    reflexivity.
Qed.

(** [read] once the file is open and the overpass resolved. *)
Lemma read_resolved (fs : gmap string H5File) (self self' : t)
    (ts : option Datetime.datetime) (ds : H5File) :
  fs !! filename self = Some ds ->
  resolve_overpass self ds = Ok self' ->
  read fs self ts =
    {| returned := match (read_fields self' ds).1 with
                   | Ok (rd, rm) => shape_image self' rd rm ts
                   | Raise e => Raise e
                   end;
       self_after := self';
       warnings := (read_fields self' ds).2 |}.
Proof.
  intros Hfs Hres. unfold read, h5py_File. rewrite Hfs, Hres.
  destruct (read_fields self' ds) as [[[rd rm]|e] ws]; reflexivity.
Qed.

(** X16: a reader can be used again when the overpass it holds after a
    [read] is AM or PM: reading the same file again gives the same Image
    or exception and leaves the same reader. A reader that detected any
    other overpass in the file cannot: its next [read] raises
    [AssertionError]. *)
Theorem read_again (fs : gmap string H5File) (self : t)
    (ts : option Datetime.datetime) :
  (overpass (self_after (read fs self ts)) = Some "AM" \/
   overpass (self_after (read fs self ts)) = Some "PM" ->
   read fs (self_after (read fs self ts)) ts = read fs self ts) /\
  (forall (o : string) (ts' : option Datetime.datetime),
     overpass self = None ->
     overpass (self_after (read fs self ts)) = Some o ->
     o <> "AM" -> o <> "PM" ->
     returned (read fs (self_after (read fs self ts)) ts') = Raise AssertionError).
Proof.
  destruct (fs !! filename self) as [ds|] eqn:Hfs.
  2: { assert (Hsame : self_after (read fs self ts) = self)
         by (unfold read, h5py_File; rewrite Hfs; reflexivity).
       rewrite Hsame. split; [reflexivity|].
       intros o ts' Hnone Ho. rewrite Hnone in Ho. discriminate. }
  destruct (resolve_overpass self ds) as [self'|e] eqn:Hres.
  2: { assert (Hsame : self_after (read fs self ts) = self)
         by (unfold read, h5py_File; rewrite Hfs, Hres; reflexivity).
       rewrite Hsame. split; [reflexivity|].
       intros o ts' Hnone Ho. rewrite Hnone in Ho. discriminate. }
  pose proof (resolve_overpass_filename _ _ _ Hres) as Hname.
  rewrite (read_resolved fs self self' ts ds Hfs Hres). simpl.
  split.
  - intros Hov. apply read_resolved; [rewrite Hname; exact Hfs|].
    destruct Hov as [Hov|Hov]; rewrite (resolve_overpass_fixed _ ds _ Hov); reflexivity.
  - intros o ts' _ Ho Ham Hpm. unfold read, h5py_File. rewrite Hname, Hfs.
    rewrite (resolve_overpass_fixed _ ds _ Ho).
    apply String.eqb_neq in Ham, Hpm. rewrite Ham, Hpm. reflexivity.
Qed.

Lemma read_again_witness :
  read Sample.fs
    (self_after (read Sample.fs
       (Sample.reader "am.h5" (ParamStr "soil_moisture") None Sample.grid16 true) None))
    None
  = read Sample.fs
      (Sample.reader "am.h5" (ParamStr "soil_moisture") None Sample.grid16 true) None.
Proof.
  destruct (read_again Sample.fs
              (Sample.reader "am.h5" (ParamStr "soil_moisture") None Sample.grid16 true)
              None) as [H _].
  apply H. left. vm_compute. reflexivity.
Defined.

(** X17: for a field of integers whose attributes have its dtype,
    masking is idempotent, and when the field has the three attributes
    every value that is left is the fill value or lies within the
    inclusive valid range. *)
Theorem mask_idempotent (attrs : gmap string Z) (data : list Z) :
  mask attrs (mask attrs data) = mask attrs data /\
  (forall fill_value valid_min valid_max : Z,
     attrs !! "_FillValue" = Some fill_value ->
     attrs !! "valid_min" = Some valid_min ->
     attrs !! "valid_max" = Some valid_max ->
     Forall (fun v => v = fill_value \/ (valid_min <= v <= valid_max)%Z)
            (mask attrs data)).
Proof.
  unfold mask.
  destruct (attrs !! "_FillValue") as [f|]; [|split; [reflexivity|discriminate]].
  destruct (attrs !! "valid_min") as [lo|]; [|split; [reflexivity|discriminate]].
  destruct (attrs !! "valid_max") as [hi|]; [|split; [reflexivity|discriminate]].
  unfold Np.where_. split.
  - rewrite <- list_fmap_compose. apply list_fmap_ext. intros _ v _. simpl.
    destruct ((v <? lo)%Z || (v >? hi)%Z) eqn:E; [|rewrite E; reflexivity].
    destruct ((f <? lo)%Z || (f >? hi)%Z); reflexivity.
  - intros ? ? ? [= <-] [= <-] [= <-]. apply Forall_fmap, Forall_forall.
    intros v _. simpl.
    destruct ((v <? lo)%Z || (v >? hi)%Z) eqn:E; [left; reflexivity|right].
    apply orb_false_iff in E as [E1 E2].
    apply Z.ltb_ge in E1. rewrite Z.gtb_ltb in E2. apply Z.ltb_ge in E2. lia.
Qed.

Lemma mask_idempotent_witness :
  Forall (fun v => v = (-9999)%Z \/ (2 <= v <= 13)%Z)
         (mask Sample.range_attrs [0; 1; 2; 13; 14; 7]%Z).
Proof.
  destruct (mask_idempotent Sample.range_attrs [0; 1; 2; 13; 14; 7]%Z) as [_ H].
  apply H; reflexivity.
Defined.

Lemma lookup_rev {A : Type} (l : list A) (i : nat) :
  (i < length l)%nat -> rev l !! (length l - 1 - i)%nat = l !! i.
Proof.
  intros Hi. rewrite rev_alt. change (rev_append l []) with (reverse l).
  rewrite reverse_lookup by lia. f_equal. lia.
Qed.

Lemma lookup_concat_rows (c : nat) (rows : list (list Z)) (k j : nat) (row : list Z) :
  Forall (fun row => length row = c) rows ->
  rows !! k = Some row -> (j < c)%nat ->
  concat rows !! (k * c + j)%nat = row !! j.
Proof.
  intros Hc. revert k; induction Hc as [|r0 rows Hr0 _ IH]; intros k Hk Hj;
    [discriminate|].
  destruct k as [|k]; simpl in *.
  - injection Hk as ->. rewrite lookup_app_l by lia. reflexivity.
  - rewrite lookup_app_r by lia. rewrite Hr0.
    replace (c + k * c + j - c)%nat with (k * c + j)%nat by lia.
    apply IH; assumption.
Qed.

(** The cell of a raster in terms of the flat array it is made from. *)
Lemma raster_of_cell (r c : nat) (a : list Z) (rows : list (list Z)) :
  raster_of r c (Arr1 a) (Arr2 rows) ->
  forall i j : nat, (i < r)%nat -> (j < c)%nat ->
    exists row : list Z,
      rows !! i = Some row /\ row !! j = a !! ((r - 1 - i) * c + j)%nat.
Proof.
  intros ((Hr & Hc) & _ & ->) i j Hi Hj.
  destruct (lookup_lt_is_Some_2 rows i) as [row Hrow]; [lia|].
  exists row. split; [exact Hrow|]. symmetry.
  unfold Np.flatten, Np.flipud.
  apply (lookup_concat_rows c); [apply Forall_rev; exact Hc| |exact Hj].
  rewrite <- Hr, lookup_rev by lia. exact Hrow.
Qed.

(** X18: where each value of a raster comes from. For a grid with a 2-D
    shape [(r, c)] and [r * c] active points on which flatten mode
    returns, raster mode returns, and in every data array and in both
    coordinate arrays the cell in row [i] and column [j] is the element
    of the flat array at position [(r - 1 - i) * c + j]: the first [c]
    active points of the grid fill the last row, the last [c] the
    first. *)
Theorem read_raster_cell (fs : gmap string H5File) (self : t)
    (ts : option Datetime.datetime) (r c : nat) (img1 : Image) :
  subset_shape (grid self) = [r; c] ->
  length (activearrlon (grid self)) = (r * c)%nat ->
  length (activearrlat (grid self)) = (r * c)%nat ->
  length (activegpis (grid self)) = (r * c)%nat ->
  returned (read fs (set_flatten true self) ts) = Ok img1 ->
  exists (img2 : Image) (lons lats : list (list Z)),
    returned (read fs (set_flatten false self) ts) = Ok img2 /\
    lon img2 = Arr2 lons /\ lat img2 = Arr2 lats /\
    (forall i j : nat, (i < r)%nat -> (j < c)%nat ->
       exists row : list Z,
         lons !! i = Some row /\
         row !! j = activearrlon (grid self) !! ((r - 1 - i) * c + j)%nat) /\
    (forall i j : nat, (i < r)%nat -> (j < c)%nat ->
       exists row : list Z,
         lats !! i = Some row /\
         row !! j = activearrlat (grid self) !! ((r - 1 - i) * c + j)%nat) /\
    (forall (name : string) (d : list Z),
       data img1 !! name = Some (Arr1 d) ->
       exists rows : list (list Z),
         data img2 !! name = Some (Arr2 rows) /\
         forall i j : nat, (i < r)%nat -> (j < c)%nat ->
           exists row : list Z,
             rows !! i = Some row /\ row !! j = d !! ((r - 1 - i) * c + j)%nat).
Proof.
  intros Hshape Hlon Hlat Hgpis Himg1.
  destruct (read_raster_of_flatten fs self ts r c img1 Hshape Hlon Hlat Hgpis Himg1)
    as (img2 & H2 & Hl & Hla & _ & Hdata & _).
  destruct (read_flatten_coordinates fs (set_flatten true self) ts img1 eq_refl Himg1)
    as (Hlon1 & Hlat1). simpl in Hlon1, Hlat1.
  rewrite Hlon1 in Hl. rewrite Hlat1 in Hla.
  destruct (lon img2) as [?|lons] eqn:E1; [destruct Hl|].
  destruct (lat img2) as [?|lats] eqn:E2; [destruct Hla|].
  exists img2, lons, lats. split; [exact H2|]. split; [exact E1|].
  split; [exact E2|].
  split; [apply raster_of_cell; exact Hl|].
  split; [apply raster_of_cell; exact Hla|].
  intros name d Hd. destruct (Hdata name (Arr1 d) Hd) as (a2 & Ha2 & Hr).
  destruct a2 as [?|rows]; [destruct Hr|].
  exists rows. split; [exact Ha2|]. apply raster_of_cell. exact Hr.
Qed.

Lemma read_raster_cell_witness :
  exists (img2 : Image) (rows : list (list Z)),
    returned (read Sample.fs
                (Sample.reader "am.h5" (ParamStr "surface_flag") (Some "AM")
                   Sample.grid16 false) None) = Ok img2 /\
    data img2 !! "surface_flag_am" = Some (Arr2 rows) /\
    exists row : list Z, rows !! 0%nat = Some row /\ row !! 1%nat = Some (-9999)%Z.
Proof.
  destruct (read_raster_cell Sample.fs
              (Sample.reader "am.h5" (ParamStr "surface_flag") (Some "AM")
                 Sample.grid16 false) None 4 4
              {| lon := Arr1 (activearrlon Sample.grid16);
                 lat := Arr1 (activearrlat Sample.grid16);
                 data := {[ "surface_flag_am" :=
                              Arr1 [12; 13; -9999; -9999; 8; 9; 10; 11;
                                    4; 5; 6; 7; -9999; -9999; 2; 3]%Z ]};
                 metadata := {[ "surface_flag_am" := Sample.range_attrs ]};
                 timestamp := None |})
    as (img2 & lons & lats & H2 & _ & _ & _ & _ & Hdata);
    try (vm_compute; reflexivity).
  destruct (Hdata "surface_flag_am"
              [12; 13; -9999; -9999; 8; 9; 10; 11; 4; 5; 6; 7; -9999; -9999; 2; 3]%Z)
    as (rows & Hrows & Hcell); [vm_compute; reflexivity|].
  exists img2, rows. split; [exact H2|]. split; [exact Hrows|].
  destruct (Hcell 0%nat 1%nat) as (row & Hrow & Hj); [lia|lia|].
  exists row. split; [exact Hrow|]. rewrite Hj. reflexivity.
Defined.

Lemma for_each_is_ok {A B : Type} (body : A -> result B) (xs : list A) :
  Forall (fun x => is_ok (body x) = true) xs -> is_ok (for_each body xs) = true.
Proof.
  induction 1 as [|x xs Hx _ IH]; simpl; [reflexivity|].
  destruct (body x) as [y|e]; [|discriminate]. simpl.
  destruct (for_each body xs) as [ys|e]; [reflexivity|discriminate].
Qed.

(** A parameter loads exactly when its field is present and every index
    of the grid lies within the flattened field. *)
Lemma read_parameter_is_ok (self : t) (group : Group) (p : string) :
  is_ok (read_parameter self group p) = true <->
  exists param : Dataset,
    group !! (p ++ field_suffix (overpass self)) = Some param /\
    Forall (fun i =>
              (- Z.of_nat (length (Np.flatten (Np.flipud (values param)))) <= i
               < Z.of_nat (length (Np.flatten (Np.flipud (values param)))))%Z)
           (activegpis (grid self)).
Proof.
  split.
  - destruct (read_parameter self group p) as [x|e] eqn:Hx; [|discriminate].
    intros _. destruct (read_parameter_inv _ _ _ _ Hx)
      as (param & raw & Hparam & Hraw & _).
    exists param. split; [exact Hparam|].
    apply (fancy_index_in_bounds _ _ _ Hraw).
  - intros (param & Hparam & Hin). unfold read_parameter, h5_getitem.
    rewrite Hparam; simpl.
    assert (Hok : is_ok (Np.fancy_index (Np.flatten (Np.flipud (values param)))
                           (activegpis (grid self))) = true).
    { apply for_each_is_ok. eapply Forall_impl; [exact Hin|].
      intros i Hi. apply getitem_in_bounds. exact Hi. }
    destruct (Np.fancy_index _ _) as [raw|e]; [|discriminate]. simpl.
    destruct (ret_param_name _ _ _) as [name w]. reflexivity.
Qed.

(** X19: for parameter names that address direct members of a group
    (no path), in flatten mode [read] returns an Image exactly when the file
    opens, the overpass is resolved, the group of the overpass is in the
    file, and each requested parameter has its field in the group with
    every index of the grid inside the flattened field; the shape of the
    grid and its coordinates are not looked at. *)
Theorem read_flatten_returns_iff (fs : gmap string H5File) (self : t)
    (ts : option Datetime.datetime) :
  flatten self = true ->
  Forall (fun p => h5_plain_name p = true) (parameters self) ->
  (is_ok (returned (read fs self ts)) = true <->
   exists (ds : H5File) (self' : t) (group : Group),
     fs !! filename self = Some ds /\
     resolve_overpass self ds = Ok self' /\
     ds !! sm_field self' = Some group /\
     Forall (fun p =>
               exists param : Dataset,
                 group !! (p ++ field_suffix (overpass self')) = Some param /\
                 Forall (fun i =>
                           (- Z.of_nat (length (Np.flatten (Np.flipud (values param))))
                            <= i
                            < Z.of_nat (length (Np.flatten (Np.flipud (values param)))))%Z)
                        (activegpis (grid self)))
            (parameters self)).
Proof.
  intros Hfl _. split.
  - destruct (returned (read fs self ts)) as [img|e] eqn:Himg; [|discriminate].
    intros _. apply read_ok_inv in Himg
      as (ds & self' & rd & rm & Hfs & Hres & Hf & _).
    destruct (read_fields_inv _ _ _ _ Hf) as (group & xs & Hgroup & Hxs & _).
    destruct (resolve_overpass_grid _ _ _ Hres) as (Hg & Hps & _).
    exists ds, self', group. repeat split; try assumption.
    rewrite <- Hps, <- Hg. apply Forall_lookup. intros k p Hp.
    destruct (Forall2_lookup_l _ _ _ _ _ Hxs Hp) as (x & _ & Hread).
    apply read_parameter_is_ok. rewrite Hread. reflexivity.
  - intros (ds & self' & group & Hfs & Hres & Hgroup & Hall).
    destruct (resolve_overpass_grid _ _ _ Hres) as (Hg & Hps & _ & Hfl').
    rewrite <- Hps, <- Hg in Hall.
    assert (Hloop : is_ok (for_each (read_parameter self' group) (parameters self'))
                    = true).
    { apply for_each_is_ok. eapply Forall_impl; [exact Hall|].
      intros p Hp. apply read_parameter_is_ok. exact Hp. }
    destruct (for_each (read_parameter self' group) (parameters self')) as [xs|e] eqn:E;
      [|discriminate].
    rewrite (read_returned fs self self' ts ds
               (foldl store_data ∅ xs) (foldl store_meta ∅ xs) Hfs Hres).
    + rewrite shape_image_flatten by (rewrite Hfl'; exact Hfl). reflexivity.
    + unfold read_fields. rewrite Hgroup.
      rewrite (read_parameters_ok _ _ _ _ _ _ E). reflexivity.
Qed.

Lemma read_flatten_returns_iff_witness :
  is_ok (returned (read Sample.fs
           (Sample.reader "am.h5" (ParamStr "soil_moisture") (Some "AM")
              Sample.grid_land true) None)) = true.
Proof.
  apply (read_flatten_returns_iff Sample.fs
           (Sample.reader "am.h5" (ParamStr "soil_moisture") (Some "AM")
              Sample.grid_land true) None eq_refl);
    [repeat constructor|].
  exists Sample.ds_am,
    (Sample.reader "am.h5" (ParamStr "soil_moisture") (Some "AM") Sample.grid_land true),
    {[ "soil_moisture" := mk_Dataset Sample.rows4 ∅;
       "surface_flag" := mk_Dataset Sample.rows4 Sample.range_attrs ]}.
  split; [vm_compute; reflexivity|]. split; [vm_compute; reflexivity|].
  split; [vm_compute; reflexivity|].
  constructor; [|constructor].
  exists (mk_Dataset Sample.rows4 ∅). split; [vm_compute; reflexivity|].
  repeat (constructor; [simpl; lia|]). constructor.
Defined.

End Again.

(** ** SPL3SMP_Img.read: the order of the parameters *)

Section Order.
Import SPL3SMP_Img.

Lemma foldl_store_meta_other (xs : list loaded) (rm : gmap string (gmap string Z))
    (name : string) :
  Forall (fun y => ret_name y <> name) xs ->
  foldl store_meta rm xs !! name = rm !! name.
Proof.
  intros H. revert rm; induction H as [|y xs Hy _ IH]; intros rm; simpl; [reflexivity|].
  rewrite IH. unfold store_meta. apply lookup_insert_ne. exact Hy.
Qed.

Lemma foldl_store_data_other (xs : list loaded) (rd : gmap string (list Z))
    (name : string) :
  Forall (fun y => ret_name y <> name) xs ->
  foldl store_data rd xs !! name = rd !! name.
Proof.
  intros H. revert rd; induction H as [|y xs Hy _ IH]; intros rd; simpl; [reflexivity|].
  rewrite IH. unfold store_data. apply lookup_insert_ne. exact Hy.
Qed.

(** X20: of the requested parameters that are returned under one name
    the one listed last is the one returned: when no parameter listed
    after [p] has the output name of [p], the metadata of every Image
    returned have under that name the attributes loaded for [p], and in
    flatten mode the data have the values loaded for [p]. *)
Theorem read_last_listed_parameter (fs : gmap string H5File) (self self' : t)
    (ts : option Datetime.datetime) (ds : H5File) (group : Group)
    (ps1 : list string) (p : string) (ps2 : list string) (x : loaded) (img : Image) :
  fs !! filename self = Some ds ->
  resolve_overpass self ds = Ok self' ->
  ds !! sm_field self' = Some group ->
  parameters self = (ps1 ++ p :: ps2)%list ->
  read_parameter self' group p = Ok x ->
  Forall (fun q =>
            (ret_param_name (var_overpass_str self) (overpass self') q).1
            <> ret_name x) ps2 ->
  returned (read fs self ts) = Ok img ->
  metadata img !! ret_name x = Some (ret_meta x) /\
  (flatten self = true -> data img !! ret_name x = Some (Arr1 (ret_data x))).
Proof.
  intros Hfs Hres Hgroup Hps Hx Hother Himg.
  destruct (resolve_overpass_grid _ _ _ Hres) as (_ & Hps' & Hv & Hfl).
  destruct (for_each (read_parameter self' group) (parameters self')) as [xs|e] eqn:E.
  2: { rewrite (read_resolved fs self self' ts ds Hfs Hres) in Himg. simpl in Himg.
       unfold read_fields in Himg. rewrite Hgroup in Himg.
       rewrite (read_parameters_raise _ _ _ _ _ _ E) in Himg. discriminate. }
  assert (Hf : (read_fields self' ds).1
               = Ok (foldl store_data ∅ xs, foldl store_meta ∅ xs)).
  { unfold read_fields. rewrite Hgroup, (read_parameters_ok _ _ _ _ _ _ E). reflexivity. }
  rewrite (read_returned _ _ _ _ _ _ _ Hfs Hres Hf) in Himg.
  apply for_each_Forall2 in E. rewrite Hps', Hps in E.
  apply Forall2_app_inv_l in E as (xs1 & xs2' & _ & Hrest & ->).
  apply Forall2_cons_inv_l in Hrest as (x' & xs2 & Hx' & Hxs2 & ->).
  rewrite Hx in Hx'. injection Hx' as <-.
  assert (Hnames : Forall (fun y => ret_name y <> ret_name x) xs2).
  { apply Forall_lookup. intros k y Hy.
    destruct (Forall2_lookup_r _ _ _ _ _ Hxs2 Hy) as (q & Hq & Hread).
    rewrite (proj1 (read_parameter_name _ _ _ _ Hread)), Hv.
    apply (proj1 (Forall_lookup _ _) Hother k q Hq). }
  destruct (shape_image_ok_inv _ _ _ _ _ Himg) as (Hmeta & _ & _).
  split.
  - rewrite Hmeta, foldl_app. simpl.
    rewrite (foldl_store_meta_other _ _ _ Hnames).
    unfold store_meta. apply lookup_insert_eq.
  - intros Htrue. rewrite shape_image_flatten in Himg by (rewrite Hfl; exact Htrue).
    injection Himg as <-. simpl. rewrite lookup_fmap, foldl_app. simpl.
    rewrite (foldl_store_data_other _ _ _ Hnames).
    unfold store_data. rewrite lookup_insert_eq. reflexivity.
Qed.

Lemma read_last_listed_parameter_witness :
  exists img : Image,
    returned (read Sample.fs
                (Sample.reader "both.h5"
                   (ParamList ["soil_moisture_pm"; "soil_moisture"]) (Some "PM")
                   Sample.grid16 true) None) = Ok img /\
    data img !! "soil_moisture_pm" = Some (Arr1 (Np.flatten (Np.flipud Sample.rows4))).
Proof.
  eexists. split; [vm_compute; reflexivity|].
  match goal with
  | |- data ?i !! _ = _ =>
      destruct (read_last_listed_parameter Sample.fs
                  (Sample.reader "both.h5"
                     (ParamList ["soil_moisture_pm"; "soil_moisture"]) (Some "PM")
                     Sample.grid16 true)
                  (Sample.reader "both.h5"
                     (ParamList ["soil_moisture_pm"; "soil_moisture"]) (Some "PM")
                     Sample.grid16 true)
                  None Sample.ds_both
                  {[ "soil_moisture_pm" := mk_Dataset Sample.rows4 ∅;
                     "soil_moisture_pm_pm" :=
                       mk_Dataset Sample.rows4_other Sample.partial_attrs ]}
                  ["soil_moisture_pm"] "soil_moisture" []
                  {| ret_name := "soil_moisture_pm";
                     ret_data := Np.flatten (Np.flipud Sample.rows4);
                     ret_meta := ∅; ret_warn := [] |} i) as [_ H];
        [first [vm_compute; reflexivity|constructor] ..|]
  end.
  apply H. reflexivity.
Defined.

End Order.

(** ** SPL3SMP_Img.read: the values and the names in the Image returned *)

Section Returned.
Import SPL3SMP_Img.






Lemma Forall2_fmap_eq {A B C : Type} (f : A -> C) (g : B -> C)
    (xs : list A) (ys : list B) :
  Forall2 (fun x y => f x = g y) xs ys -> f <$> xs = g <$> ys.
Proof.
  induction 1 as [|x y xs ys Hxy _ IH]; [reflexivity|].
  rewrite !fmap_cons, Hxy, IH. reflexivity.
Qed.

(** C4: the names under which [read] returns the requested parameters.
    Every Image returned comes with a known overpass [o] on the reader
    (the one given to the constructor, when one was given), and the keys
    of its data and of its metadata are the names computed from the
    requested names: with output-suffixing enabled the requested name
    followed by ["_"] and [o] in lower case ([_am], [_pm]) unless it ends
    with that suffix already, with output-suffixing disabled the
    requested name itself. No call of [read] emits a warning. With no
    overpass given and none found in the file, [read] returns nothing
    under any name: it raises [IndexError] where it resolves the
    overpass, before the naming step and its warning are reached. *)
Theorem read_output_names (fs : gmap string H5File) (self : t)
    (ts : option Datetime.datetime) :
  (forall img : Image,
     returned (read fs self ts) = Ok img ->
     exists o : string,
       overpass (self_after (read fs self ts)) = Some o /\
       (forall o0 : string, overpass self = Some o0 -> o = o0) /\
       let name := fun p : string =>
         if var_overpass_str self
         then if PyStr.endswith p ("_" ++ PyStr.lower o)
              then p else p ++ "_" ++ PyStr.lower o
         else p in
       dom (data img) = list_to_set (name <$> parameters self) /\
       dom (metadata img) = list_to_set (name <$> parameters self)) /\
  warnings (read fs self ts) = [] /\
  (overpass self = None ->
   forall ds : H5File,
     fs !! filename self = Some ds ->
     find_overpasses (overpass_templ self) (h5_keys ds) = [] ->
     returned (read fs self ts) = Raise IndexError_list).
Proof.
  split; [|split].
  - intros img Himg.
    apply read_ok_inv in Himg as (ds & self' & rd & rm & Hfs & Hres & Hf & Himg).
    destruct (resolve_overpass_is_Some _ _ _ Hres) as [o Ho].
    destruct (resolve_overpass_grid _ _ _ Hres) as (_ & Hps & Hv & _).
    exists o. rewrite (read_self_after_resolved fs self self' ts ds Hfs Hres).
    split; [exact Ho|]. split.
    { intros o0 Ho0.
      destruct (resolve_overpass_ok _ _ _ Hres) as [[_ ->]|[Hnone _]]; congruence. }
    destruct (shape_image_ok_inv _ _ _ _ _ Himg) as (Hmeta & _ & Hdom).
    destruct (read_fields_inv _ _ _ _ Hf) as (group & xs & _ & Hxs & -> & ->).
    assert (Hnames : ret_name <$> xs
              = (fun p : string =>
                   if var_overpass_str self
                   then if PyStr.endswith p ("_" ++ PyStr.lower o)
                        then p else p ++ "_" ++ PyStr.lower o
                   else p) <$> parameters self).
    { symmetry. rewrite <- Hps. apply Forall2_fmap_eq.
      eapply Forall2_impl; [exact Hxs|]. intros q x Hread. simpl in Hread |- *.
      rewrite (proj1 (read_parameter_name _ _ _ _ Hread)), Hv.
      unfold ret_param_name. rewrite Ho.
      destruct (var_overpass_str self); [|reflexivity].
      destruct (PyStr.endswith q ("_" ++ PyStr.lower o)); reflexivity. }
    cbv zeta. rewrite <- Hnames, Hdom, Hmeta.
    rewrite dom_foldl_store_data, dom_foldl_store_meta, !dom_empty_L,
      !union_empty_l_L.
    split; reflexivity.
  - unfold read. destruct (h5py_File fs (filename self)) as [ds|e]; [|reflexivity].
    destruct (resolve_overpass self ds) as [self'|e] eqn:Hres; [|reflexivity].
    pose proof (resolve_overpass_is_Some _ _ _ Hres) as Hsome.
    unfold read_fields. destruct (ds !! sm_field self') as [group|]; [|reflexivity].
    pose proof (read_parameters_no_warning self' group (parameters self') ∅ ∅ Hsome)
      as Hw.
    destruct (read_parameters self' group (parameters self') ∅ ∅)
      as [[[rd rm]|e] ws]; simpl in *; exact Hw.
  - intros Hnone ds Hfs Hempty. unfold read, h5py_File. rewrite Hfs.
    rewrite (resolve_overpass_empty self ds Hnone Hempty). reflexivity.
Qed.

(** Under PM, [soil_moisture] and [soil_moisture_pm] are both returned
    as [soil_moisture_pm]; an old file without overpass group is not
    read at all. *)
Lemma read_output_names_witness :
  (exists img : Image,
     returned (read Sample.fs
                 (Sample.reader "both.h5"
                    (ParamList ["soil_moisture"; "soil_moisture_pm"]) (Some "PM")
                    Sample.grid16 true) None) = Ok img /\
     dom (data img) = {[ "soil_moisture_pm" ]}) /\
  returned (read Sample.fs
              (Sample.reader "old.h5" (ParamStr "soil_moisture") None
                 Sample.grid16 true) None) = Raise IndexError_list.
Proof.
  split.
  - pose proof (read_output_names Sample.fs
                  (Sample.reader "both.h5"
                     (ParamList ["soil_moisture"; "soil_moisture_pm"]) (Some "PM")
                     Sample.grid16 true) None) as [H _].
    destruct (returned (read Sample.fs
                (Sample.reader "both.h5"
                   (ParamList ["soil_moisture"; "soil_moisture_pm"]) (Some "PM")
                   Sample.grid16 true) None)) as [img|e] eqn:Himg;
      [|vm_compute in Himg; discriminate].
    destruct (H img eq_refl) as (o & _ & Ho & Hdom & _).
    pose proof (Ho "PM" eq_refl) as Heq. subst o.
    exists img. split; [reflexivity|]. rewrite Hdom.
    change (list_to_set ["soil_moisture_pm"; "soil_moisture_pm"]
            = ({[ "soil_moisture_pm" ]} : gset string)).
    simpl. rewrite union_idemp_L. apply right_id_L. exact _.
  - destruct (read_output_names Sample.fs
                (Sample.reader "old.h5" (ParamStr "soil_moisture") None
                   Sample.grid16 true) None) as (_ & _ & H).
    apply (H eq_refl Sample.ds_old); vm_compute; reflexivity.
Defined.

End Returned.
